(** * Wider2Yolo: a shallow embedding of [wider2yolo.py]

    The script converts WIDER-Face style annotation files to YOLO text files
    and PASCAL VOC XML files, and filters an annotation file down to the
    records whose image exists.

    Conventions of the embedding:
    - Python [str] is [string]; the text is taken to be ASCII.
    - Python [int] is [Z]; Python [float] is an exact rational ([Qc]),
      so results about the arithmetic are results about exact arithmetic.
    - The collaborators outside the script (the float formatter behind an
      f-string, [os.path.exists], [PIL.Image.open], the success of opening a
      file for writing) are variables of a section.
    - [os.path] is the POSIX flavour ([posixpath]).
    - A raised exception is a value of [exn]; a loop that may not terminate
      takes fuel. *)

From Stdlib Require Import ZArith QArith Qcanon Ascii Lia DecimalString.
From Stdlib Require Import DecimalPos DecimalZ.
From Stdlib Require String.
From stdpp Require Import base option list numbers strings gmap.

Local Open Scope Z_scope.

(** ** Exceptions and results *)

Inductive exn : Type :=
  | ValueError
  | ZeroDivisionError
  | IndexError
  | OSError.

Inductive result (A : Type) : Type :=
  | Ok (a : A)
  | Raise (e : exn).
Arguments Ok {A} a.
Arguments Raise {A} e.

Definition bind {A B : Type} (r : result A) (k : A -> result B) : result B :=
  match r with
  | Ok a => k a
  | Raise e => Raise e
  end.

Notation "x <- r ;; k" := (bind r (fun x => k))
  (at level 100, r at next level, right associativity).

(** ** Python string built-ins (ASCII) *)

Module Py.

(** [str.isspace] on one ASCII character: TAB, LF, VT, FF, CR, the four
    separators FS, GS, RS, US, and the space. *)
Definition isspace (c : ascii) : bool :=
  let n := nat_of_ascii c in
  ((9 <=? n)%nat && (n <=? 13)%nat) || ((28 <=? n)%nat && (n <=? 32)%nat).

Definition isdigit (c : ascii) : bool :=
  let n := nat_of_ascii c in (48 <=? n)%nat && (n <=? 57)%nat.

Definition digit_value (c : ascii) : Z := Z.of_nat (nat_of_ascii c) - 48.

(** [s.lstrip()], [s.rstrip()], [s.strip()] *)
Fixpoint lstrip (s : string) : string :=
  match s with
  | String c s' => if isspace c then lstrip s' else s
  | EmptyString => EmptyString
  end.

Definition rstrip (s : string) : string :=
  String.rev (lstrip (String.rev s)).

Definition strip (s : string) : string := rstrip (lstrip s).

(** [s.split()]: the maximal runs of non-space characters. [cur] is the
    run being read, reversed. *)
Fixpoint split_go (cur : option string) (s : string) : list string :=
  match s with
  | EmptyString =>
      match cur with Some w => [String.rev w] | None => [] end
  | String c s' =>
      if isspace c
      then match cur with
           | Some w => String.rev w :: split_go None s'
           | None => split_go None s'
           end
      else split_go (Some (String c (default EmptyString cur))) s'
  end.

Definition split (s : string) : list string := split_go None s.

(** [s.lower()] *)
Definition lower_char (c : ascii) : ascii :=
  let n := nat_of_ascii c in
  if (65 <=? n)%nat && (n <=? 90)%nat then ascii_of_nat (n + 32) else c.

Fixpoint lower (s : string) : string :=
  match s with
  | EmptyString => EmptyString
  | String c s' => String (lower_char c) (lower s')
  end.

(** [s.startswith(p)], [s.endswith(p)] *)
Definition startswith (s p : string) : bool := String.prefix p s.

Definition endswith (s p : string) : bool :=
  String.prefix (String.rev p) (String.rev s).

(** [int(s)] in base 10: optional blanks, an optional sign, then digits
    where a single underscore may stand between two digits, then optional
    blanks; [None] stands for [ValueError]. The blanks [int] itself skips
    are those of C's [isspace]. [digits acc prev s] reads the digit run;
    [prev] tells whether the previous character was a digit. (The
    interpreter's configurable cap on the number of digits is left out.) *)
Definition c_isspace (c : ascii) : bool :=
  let n := nat_of_ascii c in
  ((9 <=? n)%nat && (n <=? 13)%nat) || (n =? 32)%nat.

Fixpoint c_lstrip (s : string) : string :=
  match s with
  | String c s' => if c_isspace c then c_lstrip s' else s
  | EmptyString => EmptyString
  end.

Fixpoint digits (acc : Z) (prev : bool) (s : string) : option Z :=
  match s with
  | EmptyString => if prev then Some acc else None
  | String c s' =>
      if isdigit c then digits (10 * acc + digit_value c) true s'
      else if Ascii.eqb c "_" then
        if prev then
          match s' with
          | String d _ => if isdigit d then digits acc false s' else None
          | EmptyString => None
          end
        else None
      else
        if prev
        then match c_lstrip s with EmptyString => Some acc | _ => None end
        else None
  end.

Definition int (s : string) : option Z :=
  match c_lstrip s with
  | String "+" s' => digits 0 false s'
  | String "-" s' => Z.opp <$> digits 0 false s'
  | s' => digits 0 false s'
  end.

(** [str(n)] for an [int] *)
Definition str (n : Z) : string := NilZero.string_of_int (Z.to_int n).

(** [s.rfind(c)] for a one-character [c]: the index of the last
    occurrence, or -1. *)
Fixpoint rfind_go (c : ascii) (s : string) (i : Z) (last : Z) : Z :=
  match s with
  | EmptyString => last
  | String d s' => rfind_go c s' (i + 1) (if Ascii.eqb d c then i else last)
  end.

Definition rfind (s : string) (c : ascii) : Z := rfind_go c s 0 (-1).

(** slices [s[:i]] and [s[i:]] for [0 <= i] *)
Fixpoint take (n : nat) (s : string) : string :=
  match n, s with
  | S n', String c s' => String c (take n' s')
  | _, _ => EmptyString
  end.

Fixpoint drop (n : nat) (s : string) : string :=
  match n, s with
  | S n', String _ s' => drop n' s'
  | _, _ => s
  end.

End Py.

(** ** [os.path], POSIX flavour *)

Module OsPath.

Definition sep : ascii := "/"%char.

(** [os.path.basename(p)]: what follows the last separator. *)
Definition basename (p : string) : string :=
  Py.drop (Z.to_nat (Py.rfind p sep + 1)) p.

Fixpoint all_dots (s : string) : bool :=
  match s with
  | EmptyString => true
  | String c s' => Ascii.eqb c "." && all_dots s'
  end.

(** [os.path.splitext(p)]: split at the last dot, when that dot comes
    after the last separator and is preceded, in its component, by a
    character that is not a dot. *)
Definition splitext (p : string) : string * string :=
  let sepIndex := Py.rfind p sep in
  let dotIndex := Py.rfind p "." in
  if sepIndex <? dotIndex then
    let filenameIndex := sepIndex + 1 in
    let before :=
      Py.take (Z.to_nat (dotIndex - filenameIndex))
              (Py.drop (Z.to_nat filenameIndex) p) in
    if all_dots before then (p, EmptyString)
    else (Py.take (Z.to_nat dotIndex) p, Py.drop (Z.to_nat dotIndex) p)
  else (p, EmptyString).

(** [os.path.join(a, b)] *)
Definition join (a b : string) : string :=
  if Py.startswith b "/" then b
  else if String.eqb a "" || Py.endswith a "/" then a +:+ b
  else a +:+ "/" +:+ b.

(** [p.split('/')]; [cur] is the component being read, reversed. *)
Fixpoint split_sep (cur : string) (s : string) : list string :=
  match s with
  | EmptyString => [String.rev cur]
  | String c s' =>
      if Ascii.eqb c sep then String.rev cur :: split_sep EmptyString s'
      else split_sep (String c cur) s'
  end.

(** ['/'.join(comps)] *)
Fixpoint join_sep (comps : list string) : string :=
  match comps with
  | [] => EmptyString
  | [c] => c
  | c :: cs => c +:+ "/" +:+ join_sep cs
  end.

(** The loop of [normpath] over the components. *)
Fixpoint norm_comps (initial_slashes : nat) (new_comps comps : list string)
    : list string :=
  match comps with
  | [] => new_comps
  | comp :: rest =>
      if String.eqb comp "" || String.eqb comp "." then
        norm_comps initial_slashes new_comps rest
      else if negb (String.eqb comp "..")
              || (Nat.eqb initial_slashes 0 && Nat.eqb (length new_comps) 0)
              || (negb (Nat.eqb (length new_comps) 0)
                  && String.eqb (List.last new_comps EmptyString) "..")
      then norm_comps initial_slashes (new_comps ++ [comp]) rest
      else norm_comps initial_slashes (removelast new_comps) rest
  end.

(** [os.path.normpath(path)] *)
Definition normpath (path : string) : string :=
  if String.eqb path "" then "."
  else
    let initial_slashes : nat :=
      if Py.startswith path "/" then
        if Py.startswith path "//" && negb (Py.startswith path "///")
        then 2%nat else 1%nat
      else 0%nat in
    let comps := norm_comps initial_slashes [] (split_sep EmptyString path) in
    let path := join_sep comps in
    let path :=
      match initial_slashes with
      | 0%nat => path
      | 1%nat => "/" +:+ path
      | _ => "//" +:+ path
      end in
    if String.eqb path "" then "." else path.

End OsPath.

(** ** Log records

    [logging.basicConfig(level=logging.INFO)]: the [logging.debug] calls of
    the script leave no record and are not modelled. A message carries the
    values its f-string formats. *)

Inductive level : Type := INFO | WARNING | ERROR.

Inductive message : Type :=
  | InvalidBoundingBox (bbox : list Z)
  | XmlSavedTo (xml_output_path : string)
  | ErrorOpeningImage (image_path : string)
  | CheckingAndFiltering
  | NoBoundingBoxesFound (current_image : string)
  | ExpectedNumberOfBoxes (current_image num_boxes_line : string)
  | NotEnoughBoxLines (current_image : string) (num_boxes : Z)
  | UnexpectedLine (line : string)
  | FilteredFileCreated
  | ProcessedImages (n : nat)
  | MissingImages (n : nat)
  | ExamplesOfMissing
  | MissingExample (img : string)
  | MoreMissing (n : nat)
  | StartingProcessing
  | NumberOfLines (n : nat)
  | FoundImage (current_image : string)
  | NumberOfBoxes (current_image : string) (num_boxes : Z)
  | InvalidBoxValues (bbox_line current_image : string)
  | IncompleteBoxData (bbox_line current_image : string)
  | TryingToOpen (image_path : string)
  | SkippingImage (current_image : string)
  | YoloSavedTo (yolo_output_path : string)
  | ErrorSavingYolo (yolo_output_path : string)
  | ErrorCreatingVoc (current_image : string)
  | FilesCreated (yolo_file_count voc_file_count : nat).

Definition log : Type := list (level * message).

Definition is_warning (r : level * message) : bool :=
  match r.1 with WARNING => true | _ => false end.

(** ** XML element trees ([xml.etree.ElementTree]) *)

#[warnings="-register-all"] Inductive element : Type :=
  | Element (tag : string) (text : option string) (children : list element).

Definition tag_of (e : element) : string :=
  match e with Element t _ _ => t end.

Definition children_of (e : element) : list element :=
  match e with Element _ _ c => c end.

(** A leaf made by [ET.SubElement(parent, tag).text = text]. *)
Definition leaf (tag text : string) : element := Element tag (Some text) [].

(** The children of [e] with tag [t] ([e.findall(t)]). *)
Definition findall (t : string) (e : element) : list element :=
  List.filter (fun c => String.eqb (tag_of c) t) (children_of e).

(** ** Files written by the script *)

Inductive file_data : Type :=
  | TextFile (content : string)
  | XmlFile (root : element).

(** ** Coordinate conversion: [convert_to_yolo] *)

Local Open Scope Qc_scope.

(** Python's [/] on numbers. *)
Definition true_div (a b : Qc) : result Qc :=
  if decide (b = 0) then Raise ZeroDivisionError else Ok (a / b).

(** The four locals [x_center], [y_center], [width_norm], [height_norm] of
    [convert_to_yolo]. Unpacking a list that has not four items raises
    [ValueError]. *)
Definition yolo_fields (bbox : list Z) (img_width img_height : Z)
    : result (Qc * Qc * Qc * Qc) :=
  match bbox with
  | [xmin; ymin; width; height] =>
      half_width <- true_div (Qc_of_Z width) (Qc_of_Z 2) ;;
      x_center <- true_div (Qc_of_Z xmin + half_width) (Qc_of_Z img_width) ;;
      half_height <- true_div (Qc_of_Z height) (Qc_of_Z 2) ;;
      y_center <- true_div (Qc_of_Z ymin + half_height) (Qc_of_Z img_height) ;;
      width_norm <- true_div (Qc_of_Z width) (Qc_of_Z img_width) ;;
      height_norm <- true_div (Qc_of_Z height) (Qc_of_Z img_height) ;;
      Ok (x_center, y_center, width_norm, height_norm)
  | _ => Raise ValueError
  end.

Local Close Scope Qc_scope.

Section Formatting.

(** How an f-string renders a float. *)
Variable float_repr : Qc -> string.

(** The f-string [f"0 {x_center} {y_center} {width_norm} {height_norm}"]. *)
Definition yolo_line (f : Qc * Qc * Qc * Qc) : string :=
  let '(x_center, y_center, width_norm, height_norm) := f in
  "0 " +:+ float_repr x_center +:+ " " +:+ float_repr y_center +:+ " "
       +:+ float_repr width_norm +:+ " " +:+ float_repr height_norm.

Definition convert_to_yolo (bbox : list Z) (img_width img_height : Z)
    : result string :=
  f <- yolo_fields bbox img_width img_height ;;
  Ok (yolo_line f).

End Formatting.

(** ** VOC documents: the tree built by [create_voc_xml] *)

(** One [object] element, for a box of four items. *)
Definition voc_object (bbox0 bbox1 bbox2 bbox3 : Z) : element :=
  Element "object" None
    [ leaf "name" "face";
      leaf "pose" "Unspecified";
      leaf "truncated" "0";
      leaf "difficult" "0";
      Element "bndbox" None
        [ leaf "xmin" (Py.str bbox0);
          leaf "ymin" (Py.str bbox1);
          leaf "xmax" (Py.str (bbox0 + bbox2));
          leaf "ymax" (Py.str (bbox1 + bbox3)) ] ].

(** The loop over [bounding_boxes]: the [object] elements appended to
    [annotation], and the warnings for the boxes that are skipped. *)
Fixpoint voc_objects (bounding_boxes : list (list Z)) (lg : log)
    : list element * log :=
  match bounding_boxes with
  | [] => ([], lg)
  | bbox :: rest =>
      match bbox with
      | [b0; b1; b2; b3] =>
          let '(objs, lg') := voc_objects rest lg in
          (voc_object b0 b1 b2 b3 :: objs, lg')
      | _ => voc_objects rest (lg ++ [(WARNING, InvalidBoundingBox bbox)])
      end
  end.

Definition voc_fixed_fields (filename : string) (width height : Z)
    (output_dir : string) : list element :=
  [ leaf "folder" (OsPath.basename output_dir);
    leaf "filename" (OsPath.basename filename);
    Element "source" None [ leaf "database" "WIDER Face" ];
    Element "size" None
      [ leaf "width" (Py.str width);
        leaf "height" (Py.str height);
        leaf "depth" "3" ];
    leaf "segmented" "0" ].

Definition voc_annotation (filename : string) (width height : Z)
    (bounding_boxes : list (list Z)) (output_dir : string) (lg : log)
    : element * log :=
  let '(objs, lg') := voc_objects bounding_boxes lg in
  (Element "annotation" None
     (voc_fixed_fields filename width height output_dir ++ objs), lg').

(** [xml_output_path] of [create_voc_xml] *)
Definition xml_output_path (filename output_dir : string) : string :=
  OsPath.join output_dir
    ((OsPath.splitext (OsPath.basename filename)).1 +:+ ".xml").

(** [yolo_output_path] of [process_annotations] *)
Definition yolo_output_path (normalized_image_path output_yolo_dir : string)
    : string :=
  OsPath.join output_yolo_dir
    ((OsPath.splitext normalized_image_path).1 +:+ ".txt").

(** The line terminator. *)
Definition nl : string := String (ascii_of_nat 10) EmptyString.

(** [line.lower().endswith(('.jpg', '.jpeg'))] *)
Definition is_image_name (line : string) : bool :=
  Py.endswith (Py.lower line) ".jpg" || Py.endswith (Py.lower line) ".jpeg".

(** ** The conversion pass: [process_annotations] *)

Module Convert.

(** The locals of [process_annotations] that live across iterations,
    the files written so far and the log. *)
Record state : Type := State {
  index : nat;
  yolo_file_count : nat;
  voc_file_count : nat;
  files : gmap string file_data;
  logs : log
}.

(** How an iteration of the [while] loop ends: at its end or by
    [continue], or by [break]. *)
Inductive control : Type := Continue | Break.

(** What the loop body reads at the current line (lines 155-192 of the
    script): a record with its boxes, an image line that ends the file,
    an image line whose next line is not a count, or another line. *)
Inductive scanned : Type :=
  | Record_ (current_image : string) (num_boxes : Z)
            (bounding_boxes : list (list Z))
  | NoCountLine (current_image : string)
  | BadCountLine (current_image : string)
  | NotAnImage.

(** [list(map(int, bbox_values[:4]))], [None] for [ValueError]. *)
Definition map_int (tokens : list string) : option (list Z) :=
  mapM Py.int tokens.

(** The body of the [for _ in range(num_boxes)] loop after the bound
    check: the box of a line, or the warning that drops it. *)
Definition parse_bbox_line (current_image bbox_line : string)
    : option (list Z) * log :=
  let bbox_values := Py.split bbox_line in
  if (4 <=? length bbox_values)%nat then
    match map_int (take 4 bbox_values) with
    | Some bbox => (Some bbox, [])
    | None => (None, [(WARNING, InvalidBoxValues bbox_line current_image)])
    end
  else (None, [(WARNING, IncompleteBoxData bbox_line current_image)]).

(** The [for _ in range(num_boxes)] loop; [n] counts the iterations
    left. *)
Fixpoint read_boxes (lines : list string) (current_image : string)
    (num_boxes : Z) (n : nat) (index : nat)
    (bounding_boxes : list (list Z)) (lg : log)
    : nat * list (list Z) * log :=
  match n with
  | O => (index, bounding_boxes, lg)
  | S n' =>
      match lines !! index with
      | None =>
          (index, bounding_boxes,
           lg ++ [(WARNING, NotEnoughBoxLines current_image num_boxes)])
      | Some raw =>
          let bbox_line := Py.strip raw in
          let '(bbox, warn) := parse_bbox_line current_image bbox_line in
          read_boxes lines current_image num_boxes n' (S index)
            (bounding_boxes ++ option_list bbox) (lg ++ warn)
      end
  end.

(** Lines 155-192: from the line at [index] to the end of the box
    lines. Gives what was read, the new [index] and the log. *)
Definition scan (lines : list string) (index : nat) (lg : log)
    : scanned * nat * log :=
  match lines !! index with
  | None => (NotAnImage, index, lg)
  | Some raw =>
      let line := Py.strip raw in
      if is_image_name line then
        let current_image := line in
        let lg := lg ++ [(INFO, FoundImage current_image)] in
        let index := S index in
        match lines !! index with
        | None =>
            (NoCountLine current_image, index,
             lg ++ [(WARNING, NoBoundingBoxesFound current_image)])
        | Some raw_count =>
            let num_boxes_line := Py.strip raw_count in
            match Py.int num_boxes_line with
            | Some num_boxes =>
                let lg :=
                  lg ++ [(INFO, NumberOfBoxes current_image num_boxes)] in
                let index := S index in
                let '(index, bounding_boxes, lg) :=
                  read_boxes lines current_image num_boxes
                    (Z.to_nat num_boxes) index [] lg in
                (Record_ current_image num_boxes bounding_boxes, index, lg)
            | None =>
                (BadCountLine current_image, S index,
                 lg ++ [(WARNING,
                         ExpectedNumberOfBoxes current_image num_boxes_line)])
            end
        end
      else
        (NotAnImage, S index, lg ++ [(WARNING, UnexpectedLine line)])
  end.

Section Pass.

Variable float_repr : Qc -> string.
(** [Image.open(path)]: the size of the image, or [None] when opening
    raises. *)
Variable image_open : string -> option (Z * Z).
(** Whether [os.makedirs] of the parent and opening [path] for writing
    succeed. *)
Variable open_ok : string -> bool.

Definition get_image_size (image_path : string) (lg : log)
    : option Z * option Z * log :=
  match image_open image_path with
  | Some (width, height) => (Some width, Some height, lg)
  | None => (None, None, lg ++ [(ERROR, ErrorOpeningImage image_path)])
  end.

(** The [for bbox in bounding_boxes] loop inside [with open(...)]:
    the text written, and the exception that stopped it, if any. *)
Fixpoint write_boxes (bounding_boxes : list (list Z))
    (img_width img_height : Z) (content : string)
    : string * option exn :=
  match bounding_boxes with
  | [] => (content, None)
  | bbox :: rest =>
      match convert_to_yolo float_repr bbox img_width img_height with
      | Ok yolo_line =>
          write_boxes rest img_width img_height
            (if String.eqb yolo_line "" then content
             else content +:+ yolo_line +:+ nl)
      | Raise e => (content, Some e)
      end
  end.

(** Lines 204-215: the YOLO file of one image. *)
Definition save_yolo (normalized_image_path output_yolo_dir : string)
    (bounding_boxes : list (list Z)) (img_width img_height : Z)
    (st : state) : state :=
  let path := yolo_output_path normalized_image_path output_yolo_dir in
  if open_ok path then
    match write_boxes bounding_boxes img_width img_height "" with
    | (content, None) =>
        State (index st) (S (yolo_file_count st)) (voc_file_count st)
          (<[path := TextFile content]> (files st))
          (logs st ++ [(INFO, YoloSavedTo path)])
    | (content, Some _) =>
        State (index st) (yolo_file_count st) (voc_file_count st)
          (<[path := TextFile content]> (files st))
          (logs st ++ [(ERROR, ErrorSavingYolo path)])
    end
  else
    State (index st) (yolo_file_count st) (voc_file_count st)
      (files st) (logs st ++ [(ERROR, ErrorSavingYolo path)]).

(** [create_voc_xml]: the files and log after the call, and the
    exception it raised, if any. *)
Definition create_voc_xml (filename : string) (width height : Z)
    (bounding_boxes : list (list Z)) (output_dir : string)
    (fs : gmap string file_data) (lg : log)
    : option exn * gmap string file_data * log :=
  let '(annotation, lg) :=
    voc_annotation filename width height bounding_boxes output_dir lg in
  let path := xml_output_path filename output_dir in
  if open_ok path then
    (None, <[path := XmlFile annotation]> fs,
     lg ++ [(INFO, XmlSavedTo path)])
  else (Some OSError, fs, lg).

(** Lines 217-222: the VOC file of one image. *)
Definition save_voc (current_image normalized_image_path : string)
    (output_voc_dir : string) (bounding_boxes : list (list Z))
    (img_width img_height : Z) (st : state) : state :=
  match create_voc_xml normalized_image_path img_width img_height
          bounding_boxes output_voc_dir (files st) (logs st) with
  | (None, fs, lg) =>
      State (index st) (yolo_file_count st) (S (voc_file_count st)) fs lg
  | (Some _, fs, lg) =>
      State (index st) (yolo_file_count st) (voc_file_count st) fs
        (lg ++ [(ERROR, ErrorCreatingVoc current_image)])
  end.

Variables output_yolo_dir output_voc_dir image_dir : string.

(** Lines 194-222: the outputs of one record. *)
Definition process_record (current_image : string)
    (bounding_boxes : list (list Z)) (st : state) : state :=
  let normalized_image_path := OsPath.normpath current_image in
  let image_path := OsPath.join image_dir normalized_image_path in
  let lg := logs st ++ [(INFO, TryingToOpen image_path)] in
  match get_image_size image_path lg with
  | (Some img_width, Some img_height, lg) =>
      let st := State (index st) (yolo_file_count st) (voc_file_count st)
                  (files st) lg in
      let st := save_yolo normalized_image_path output_yolo_dir
                  bounding_boxes img_width img_height st in
      save_voc current_image normalized_image_path output_voc_dir
        bounding_boxes img_width img_height st
  | (_, _, lg) =>
      State (index st) (yolo_file_count st) (voc_file_count st)
        (files st) (lg ++ [(WARNING, SkippingImage current_image)])
  end.

Variable lines : list string.

(** One iteration of the [while] loop. *)
Definition loop_body (st : state) : control * state :=
  let '(sc, index', lg) := scan lines (index st) (logs st) in
  let st' := State index' (yolo_file_count st) (voc_file_count st)
               (files st) lg in
  match sc with
  | Record_ current_image _ bounding_boxes =>
      (Continue, process_record current_image bounding_boxes st')
  | NoCountLine _ => (Break, st')
  | BadCountLine _ => (Continue, st')
  | NotAnImage => (Continue, st')
  end.

(** [while index < total_lines: ...]; [None] when the fuel runs out. *)
Fixpoint while_loop (fuel : nat) (st : state) : option state :=
  match fuel with
  | O => None
  | S fuel' =>
      if (index st <? length lines)%nat then
        match loop_body st with
        | (Continue, st') => while_loop fuel' st'
        | (Break, st') => Some st'
        end
      else Some st
  end.

Definition initial (fs : gmap string file_data) : state :=
  State 0 0 0 fs
    [(INFO, StartingProcessing); (INFO, NumberOfLines (length lines))].

Definition summary (st : state) : state :=
  State (index st) (yolo_file_count st) (voc_file_count st) (files st)
    (logs st ++
     [(INFO, FilesCreated (yolo_file_count st) (voc_file_count st))]).

(** [process_annotations], from the lines read from [file_path] and the
    files present; each iteration moves [index] forward, so one unit of
    fuel per line and one more for the last test are enough
    ([process_annotations_total]). *)
Definition process_annotations (fs : gmap string file_data)
    : option state :=
  summary <$> while_loop (S (length lines)) (initial fs).

End Pass.

End Convert.

(** ** The filter pass: [filter_annotations] *)

Module Filter.

Record state : Type := State {
  index : Z;
  filtered_lines : list string;
  missing_images : list string;
  processed_images : nat;
  logs : log
}.

Inductive control : Type := Continue | Break.

(** How the pass ends: it returns, an exception leaves it, or the fuel
    of the model runs out. *)
Inductive outcome (A : Type) : Type :=
  | Finished (a : A)
  | Raised (e : exn)
  | OutOfFuel.
Arguments Finished {A} a.
Arguments Raised {A} e.
Arguments OutOfFuel {A}.

(** [lines[index]]: a negative index counts from the end. *)
Definition getitem (lines : list string) (index : Z) : result string :=
  let i := if index <? 0 then index + Z.of_nat (length lines) else index in
  if i <? 0 then Raise IndexError
  else match lines !! Z.to_nat i with
       | Some line => Ok line
       | None => Raise IndexError
       end.

(** The [for _ in range(num_boxes)] loop of the branch where the image
    exists; [n] counts the iterations left. *)
Fixpoint copy_boxes (lines : list string) (current_image : string)
    (num_boxes : Z) (n : nat) (index : Z) (filtered_lines : list string)
    (lg : log) : result (Z * list string * log) :=
  match n with
  | O => Ok (index, filtered_lines, lg)
  | S n' =>
      if Z.of_nat (length lines) <=? index then
        Ok (index, filtered_lines,
            lg ++ [(WARNING, NotEnoughBoxLines current_image num_boxes)])
      else
        raw <- getitem lines index ;;
        let bbox_line := Py.strip raw in
        copy_boxes lines current_image num_boxes n' (index + 1)
          (filtered_lines ++ [bbox_line +:+ nl]) lg
  end.

Section Pass.

(** [os.path.exists] *)
Variable path_exists : string -> bool.
(** Whether opening [path] for writing succeeds. *)
Variable open_ok : string -> bool.
Variables image_dir output_annotations_file : string.
Variable lines : list string.

Definition total_lines : Z := Z.of_nat (length lines).

(** One iteration of the [while] loop (lines 83-127). *)
Definition loop_body (st : state) : result (control * state) :=
  raw <- getitem lines (index st) ;;
  let line := Py.strip raw in
  if is_image_name line then
    let current_image := line in
    let image_path :=
      OsPath.normpath (OsPath.join image_dir current_image) in
    if path_exists image_path then
      let filtered := filtered_lines st ++ [line +:+ nl] in
      let index := index st + 1 in
      if total_lines <=? index then
        Ok (Break,
            State index filtered (missing_images st) (processed_images st)
              (logs st ++ [(WARNING, NoBoundingBoxesFound current_image)]))
      else
        raw_count <- getitem lines index ;;
        let num_boxes_line := Py.strip raw_count in
        match Py.int num_boxes_line with
        | Some num_boxes =>
            let filtered := filtered ++ [num_boxes_line +:+ nl] in
            let index := index + 1 in
            r <- copy_boxes lines current_image num_boxes
                   (Z.to_nat num_boxes) index filtered (logs st) ;;
            let '(index, filtered, lg) := r in
            Ok (Continue,
                State index filtered (missing_images st)
                  (S (processed_images st)) lg)
        | None =>
            Ok (Continue,
                State (index + 1) filtered (missing_images st)
                  (processed_images st)
                  (logs st ++
                   [(WARNING,
                     ExpectedNumberOfBoxes current_image num_boxes_line)]))
        end
    else
      let missing := missing_images st ++ [current_image] in
      let index := index st + 1 in
      if total_lines <=? index then
        Ok (Break,
            State index (filtered_lines st) missing (processed_images st)
              (logs st))
      else
        raw_count <- getitem lines index ;;
        match Py.int (Py.strip raw_count) with
        | Some num_boxes =>
            Ok (Continue,
                State (index + (1 + num_boxes)) (filtered_lines st) missing
                  (processed_images st) (logs st))
        | None =>
            Ok (Continue,
                State (index + 1) (filtered_lines st) missing
                  (processed_images st) (logs st))
        end
  else
    Ok (Continue,
        State (index st + 1) (filtered_lines st) (missing_images st)
          (processed_images st)
          (logs st ++ [(WARNING, UnexpectedLine line)])).

(** [while index < total_lines: ...] *)
Fixpoint while_loop (fuel : nat) (st : state) : outcome state :=
  match fuel with
  | O => OutOfFuel
  | S fuel' =>
      if index st <? total_lines then
        match loop_body st with
        | Ok (Continue, st') => while_loop fuel' st'
        | Ok (Break, st') => Finished st'
        | Raise e => Raised e
        end
      else Finished st
  end.

Definition initial : state :=
  State 0 [] [] 0 [(INFO, CheckingAndFiltering)].

(** What [outfile.writelines(filtered_lines)] writes. *)
Definition written (st : state) : string :=
  String.concat "" (filtered_lines st).

(** Lines 133-141: the summary. *)
Definition summary (st : state) : log :=
  logs st
  ++ [(INFO, FilteredFileCreated);
      (INFO, ProcessedImages (processed_images st));
      (INFO, MissingImages (length (missing_images st)))]
  ++ (if (0 <? length (missing_images st))%nat then
        [(WARNING, ExamplesOfMissing)]
        ++ ((fun img => (WARNING, MissingExample img))
              <$> take 10 (missing_images st))
        ++ (if (10 <? length (missing_images st))%nat
            then [(WARNING, MoreMissing (length (missing_images st) - 10))]
            else [])
      else []).

(** [filter_annotations], from the lines read from [file_path] and the
    files present: the files and the state at the end. An index that
    moves backwards (a negative count after a missing image) can make
    the loop run forever, whence the fuel. *)
Definition filter_annotations (fuel : nat) (fs : gmap string file_data)
    : outcome (gmap string file_data * state) :=
  match while_loop fuel initial with
  | Finished st =>
      if open_ok output_annotations_file then
        Finished
          (<[output_annotations_file := TextFile (written st)]> fs,
           State (index st) (filtered_lines st) (missing_images st)
             (processed_images st) (summary st))
      else Raised OSError
  | Raised e => Raised e
  | OutOfFuel => OutOfFuel
  end.

End Pass.

End Filter.

(** ** Definitions used to state the properties *)



(** A float formatter to run the model with: the exact fraction. *)
Definition fraction_repr (q : Qc) : string :=
  Py.str (Qnum q) +:+ "/" +:+ Py.str (Z.pos (Qden q)).

(** The box read from a raw box line, and the warnings logged for it. *)
Definition box_of_line (current_image raw : string) : option (list Z) :=
  (Convert.parse_bbox_line current_image (Py.strip raw)).1.

Definition warnings_of_line (current_image raw : string) : log :=
  (Convert.parse_bbox_line current_image (Py.strip raw)).2.

(** In the words of the specification: a box line is dropped when it has
    fewer than 4 whitespace-separated tokens or its first four tokens do
    not all parse as integers. *)
Definition box_line_dropped (raw : string) : bool :=
  let tokens := Py.split raw in
  (length tokens <? 4)%nat
  || negb (forallb (fun t => bool_decide (is_Some (Py.int t))) (take 4 tokens)).

(** A string of blanks only. *)
Fixpoint all_space (s : string) : bool :=
  match s with
  | EmptyString => true
  | String c s' => Py.isspace c && all_space s'
  end.

(** The image path that [process_annotations] opens for a record. *)
Definition image_path_of (image_dir current_image : string) : string :=
  OsPath.join image_dir (OsPath.normpath current_image).

(** Whether the character [c] occurs in [s]. *)
Fixpoint has_char (c : ascii) (s : string) : bool :=
  match s with
  | EmptyString => false
  | String d s' => Ascii.eqb d c || has_char c s'
  end.

(** In the words of the specification: the VOC file of the image with
    relative path [p] is <outputVocDir>/<imageRelativeStemPath>.xml. *)
Definition voc_path_in_spec (output_voc_dir p : string) : string :=
  OsPath.join output_voc_dir
    ((OsPath.splitext (OsPath.normpath p)).1 +:+ ".xml").

(** In the words of the specification: a count line parses when it is a
    non-negative integer. *)
Definition parses_as_count (num_boxes_line : string) : bool :=
  match Py.int num_boxes_line with
  | Some n => 0 <=? n
  | None => false
  end.

(** A small world to run the passes in: one image of 1024 x 683 pixels
    under [images], every file can be written. *)
Definition parade : string := "0--Parade/0_Parade_marchingband_1_849.jpg".

Definition example_image_open (image_path : string) : option (Z * Z) :=
  if String.eqb image_path ("images/" +:+ parade) then Some (1024, 683)
  else None.

Definition example_path_exists (image_path : string) : bool :=
  String.eqb image_path ("images/" +:+ parade).

Definition always_writable (path : string) : bool := true.

Definition example_pass (lines : list string) : option Convert.state :=
  Convert.process_annotations fraction_repr example_image_open always_writable
    "output/yolo" "output/voc" "images" lines ∅.

(** The records of a well-formed annotation file, as the specification
    describes them: an image line, a count line, and as many box lines as
    the count says. The lines are raw lines of the file. *)
Record annotation_record : Type := AnnotationRecord {
  image_line : string;
  count_line : string;
  box_lines : list string
}.

Definition block (r : annotation_record) : list string :=
  image_line r :: count_line r :: box_lines r.

Definition well_formed (r : annotation_record) : Prop :=
  is_image_name (Py.strip (image_line r)) = true
  /\ Py.int (Py.strip (count_line r)) = Some (Z.of_nat (length (box_lines r))).

(** The image path that [filter_annotations] tests for a record. *)
Definition resolved (image_dir : string) (r : annotation_record) : string :=
  OsPath.normpath (OsPath.join image_dir (Py.strip (image_line r))).

(** What [filter_annotations] appends to [filtered_lines] for a raw line. *)
Definition emitted (raw : string) : string := Py.strip raw +:+ nl.

(** ** Reading a VOC document back *)

(** The [object] element that [create_voc_xml] makes of a box, if any. *)
Definition object_of_box (bbox : list Z) : option element :=
  match bbox with
  | [b0; b1; b2; b3] => Some (voc_object b0 b1 b2 b3)
  | _ => None
  end.

(** [e.findtext(t)] parsed by [int]. *)
Definition int_child (t : string) (e : element) : option Z :=
  match findall t e with
  | Element _ (Some text) _ :: _ => Py.int text
  | _ => None
  end.

(** The box (xmin, ymin, width, height) that the [bndbox] of an [object]
    element stands for. *)
Definition box_of_object (obj : element) : option (list Z) :=
  match findall "bndbox" obj with
  | bndbox :: _ =>
      xmin ← int_child "xmin" bndbox;
      ymin ← int_child "ymin" bndbox;
      xmax ← int_child "xmax" bndbox;
      ymax ← int_child "ymax" bndbox;
      Some [xmin; ymin; xmax - xmin; ymax - ymin]
  | [] => None
  end.


(** Two more worlds to run the passes in: one where the image decoder
    reports a width of zero, one where no [.xml] file can be written. *)
Definition zero_width_image_open (image_path : string) : option (Z * Z) :=
  Some (0, 683).

Definition xml_not_writable (path : string) : bool :=
  negb (Py.endswith path ".xml").


(** The records of the log that are warnings or errors. *)
Definition is_problem (r : level * message) : bool :=
  match r.1 with INFO => false | _ => true end.

(** What holds of the state of the filter pass on every input: the
    filtered lines are lines of the input, stripped and ended by a newline;
    the images listed as missing are image lines of the input whose image
    does not exist. *)
Definition from_input (lines : list string) (line : string) : Prop :=
  exists raw, raw ∈ lines /\ line = emitted raw.

Definition really_missing (path_exists : string -> bool) (image_dir : string)
    (lines : list string) (img : string) : Prop :=
  exists raw,
    raw ∈ lines /\ img = Py.strip raw /\ is_image_name img = true
    /\ path_exists (OsPath.normpath (OsPath.join image_dir img)) = false.

Definition filter_invariant (path_exists : string -> bool)
    (image_dir : string) (lines : list string) (st : Filter.state) : Prop :=
  Forall (from_input lines) (Filter.filtered_lines st)
  /\ Forall (really_missing path_exists image_dir lines)
       (Filter.missing_images st).

(** The record that the filter pass writes for a record it keeps. *)
Definition normalized (r : annotation_record) : annotation_record :=
  AnnotationRecord (emitted (image_line r)) (emitted (count_line r))
    (emitted <$> box_lines r).

(** ** Reading and writing files *)

Definition LF : ascii := ascii_of_nat 10.
Definition CR : ascii := ascii_of_nat 13.

(** What a file opened for reading in text mode does to line ends
    (universal newlines): CR LF and a lone CR are read as LF. *)
Fixpoint translate_newlines (s : string) : string :=
  match s with
  | EmptyString => EmptyString
  | String c s' =>
      if Ascii.eqb c CR then
        String LF
          match s' with
          | String d s'' =>
              if Ascii.eqb d LF then translate_newlines s''
              else translate_newlines s'
          | EmptyString => EmptyString
          end
      else String c (translate_newlines s')
  end.

(** The lines of a text, each with its LF; [cur] is the line being read,
    reversed. *)
Fixpoint split_lines (cur : string) (s : string) : list string :=
  match s with
  | EmptyString => if String.eqb cur "" then [] else [String.rev cur]
  | String c s' =>
      if Ascii.eqb c LF then String.rev (String c cur) :: split_lines "" s'
      else split_lines (String c cur) s'
  end.

(** [file.readlines()] on a file with this content. *)
Definition readlines (content : string) : list string :=
  split_lines "" (translate_newlines content).

(** [_escape_cdata] of [xml.etree.ElementTree] *)
Fixpoint escape_cdata (text : string) : string :=
  match text with
  | EmptyString => EmptyString
  | String c text' =>
      (if Ascii.eqb c "&" then "&amp;"
       else if Ascii.eqb c "<" then "&lt;"
       else if Ascii.eqb c ">" then "&gt;"
       else String c "")
      +:+ escape_cdata text'
  end.

(** What [ElementTree.write] writes for a tree without attributes, tails
    and namespaces: no declaration, and the short form for an element with
    neither text nor children. *)
Fixpoint serialize (e : element) : string :=
  match e with
  | Element tag text children =>
      let text := default "" text in
      if String.eqb text "" && Nat.eqb (length children) 0
      then "<" +:+ tag +:+ " />"
      else
        "<" +:+ tag +:+ ">" +:+ escape_cdata text
        +:+ (fix serialize_all (l : list element) : string :=
               match l with
               | [] => ""
               | c :: l' => serialize c +:+ serialize_all l'
               end) children
        +:+ "</" +:+ tag +:+ ">"
  end.

(** The text of a file of the model. *)
Definition file_text (d : file_data) : string :=
  match d with
  | TextFile content => content
  | XmlFile root => serialize root
  end.

(** [with open(file_path, 'r') as file: lines = file.readlines()];
    a file that is not there raises. *)
Definition read_lines (fs : gmap string file_data) (file_path : string)
    : result (list string) :=
  match fs !! file_path with
  | Some d => Ok (readlines (file_text d))
  | None => Raise OSError
  end.

(** ** The script *)

Module Script.

(** The two functions as the script calls them, on a file path. The
    images are not among the files of [fs]: they are known through
    [path_exists] and [image_open]. *)
Section Run.

Variable float_repr : Qc -> string.
Variable path_exists : string -> bool.
Variable image_open : string -> option (Z * Z).
Variable open_ok : string -> bool.
(** Whether [os.makedirs(path, exist_ok=True)] succeeds. *)
Variable makedirs_ok : string -> bool.

Definition filter_annotations (file_path image_dir
    output_annotations_file : string) (fuel : nat)
    (fs : gmap string file_data)
    : Filter.outcome (gmap string file_data * Filter.state) :=
  match read_lines fs file_path with
  | Ok lines =>
      Filter.filter_annotations path_exists open_ok image_dir
        output_annotations_file lines fuel fs
  | Raise e => Filter.Raised e
  end.

Definition process_annotations (file_path output_yolo_dir output_voc_dir
    image_dir : string) (fs : gmap string file_data)
    : Filter.outcome Convert.state :=
  match read_lines fs file_path with
  | Ok lines =>
      match Convert.process_annotations float_repr image_open open_ok
              output_yolo_dir output_voc_dir image_dir lines fs with
      | Some st => Filter.Finished st
      | None => Filter.OutOfFuel
      end
  | Raise e => Filter.Raised e
  end.

Definition output_yolo_dir : string := "output/yolo".
Definition output_voc_dir : string := "output/voc".


End Run.

End Script.

(** A line as [readlines] gives it: no CR, and no LF but at its end. *)
Definition line_of_text (raw : string) : Prop :=
  has_char CR raw = false
  /\ exists body,
       has_char LF body = false /\ (raw = body \/ raw = body +:+ nl).

(** A line whose stripped form can be written and read back as one
    line. *)
Definition one_line (raw : string) : Prop :=
  has_char CR (Py.strip raw) = false /\ has_char LF (Py.strip raw) = false.

(** * Properties *)

(** ** The model on small inputs *)

Example strip_ex : Py.strip "  1 2 3 4 " = "1 2 3 4".
Proof. reflexivity. Qed.
Example split_ex :
  Py.split " 449 330  122 149 0 0" = ["449"; "330"; "122"; "149"; "0"; "0"].
Proof. reflexivity. Qed.
Example int_ex :
  Py.int "12" = Some 12 /\ Py.int "-3" = Some (-3) /\ Py.int "1_000" = Some 1000
  /\ Py.int "1__0" = None /\ Py.int "12a" = None /\ Py.int "" = None
  /\ Py.int "+" = None /\ Py.int " 7 " = Some 7 /\ Py.int "7 7" = None
  /\ Py.int "_7" = None /\ Py.int "7_" = None /\ Py.int "010" = Some 10.
Proof. repeat split; reflexivity. Qed.
Example str_ex : Py.str (-120) = "-120" /\ Py.str 0 = "0".
Proof. split; reflexivity. Qed.
Example endswith_ex : Py.endswith (Py.lower "a/B.JPG") ".jpg" = true.
Proof. reflexivity. Qed.
Example ospath_ex :
  OsPath.basename "a/b/c.jpg" = "c.jpg" /\ OsPath.basename "c.jpg" = "c.jpg"
  /\ OsPath.splitext "a/b/c.jpg" = ("a/b/c", ".jpg")
  /\ OsPath.splitext "a.b/c" = ("a.b/c", "")
  /\ OsPath.splitext "a/.bashrc" = ("a/.bashrc", "")
  /\ OsPath.splitext "a/..x.y" = ("a/..x", ".y")
  /\ OsPath.join "out" "a/b.txt" = "out/a/b.txt"
  /\ OsPath.join "out/" "b.txt" = "out/b.txt"
  /\ OsPath.join "out" "/b.txt" = "/b.txt"
  /\ OsPath.normpath "a//b/./c/../d.jpg" = "a/b/d.jpg"
  /\ OsPath.normpath "../a" = "../a"
  /\ OsPath.normpath "/../a" = "/a"
  /\ OsPath.normpath "//a" = "//a"
  /\ OsPath.normpath "///a" = "/a"
  /\ OsPath.normpath "a/.." = "."
  /\ OsPath.normpath "" = ".".
Proof. repeat split; reflexivity. Qed.

Example paths_ex :
  xml_output_path "0--Parade/0_Parade_1.jpg" "output/voc"
    = "output/voc/0_Parade_1.xml"
  /\ yolo_output_path "0--Parade/0_Parade_1.jpg" "output/yolo"
    = "output/yolo/0--Parade/0_Parade_1.txt".
Proof. split; reflexivity. Qed.

(** ** Strings *)

Lemma append_nil_l (t : string) : "" +:+ t = t.
Proof. reflexivity. Qed.

Lemma append_cons (c : ascii) (s t : string) :
  String c s +:+ t = String c (s +:+ t).
Proof. reflexivity. Qed.

Lemma append_empty_r (s : string) : s +:+ "" = s.
Proof.
  induction s as [|c s IH]; [done|]. by rewrite append_cons, IH.
Qed.

Lemma append_assoc (s t u : string) : (s +:+ t) +:+ u = s +:+ t +:+ u.
Proof.
  induction s as [|c s IH]; [done|]. by rewrite !append_cons, IH.
Qed.

Lemma rev_app_append (s t : string) :
  String.rev_app s t = String.rev s +:+ t.
Proof.
  revert t. induction s as [|c s IH]; intros t; [done|].
  unfold String.rev. simpl. rewrite (IH (String c t)), (IH (String c "")).
  by rewrite append_assoc.
Qed.

Lemma rev_cons (c : ascii) (s : string) :
  String.rev (String c s) = String.rev s +:+ String c "".
Proof. unfold String.rev at 1. simpl. apply rev_app_append. Qed.

Lemma rev_append (s t : string) :
  String.rev (s +:+ t) = String.rev t +:+ String.rev s.
Proof.
  induction s as [|c s IH].
  - by rewrite append_nil_l, append_empty_r.
  - by rewrite append_cons, !rev_cons, IH, append_assoc.
Qed.

Lemma rev_involutive (s : string) : String.rev (String.rev s) = s.
Proof.
  induction s as [|c s IH]; [done|].
  by rewrite rev_cons, rev_append, IH.
Qed.





(** [str.strip] removes blanks only, and [str.split] does not see them. *)
Lemma all_space_append (a b : string) :
  all_space (a +:+ b) = all_space a && all_space b.
Proof.
  induction a as [|c a IH]; [done|].
  rewrite append_cons. simpl. by rewrite IH, andb_assoc.
Qed.

Lemma all_space_rev (s : string) : all_space (String.rev s) = all_space s.
Proof.
  induction s as [|c s IH]; [done|].
  rewrite rev_cons, all_space_append, IH. simpl.
  by rewrite andb_true_r, andb_comm.
Qed.

Lemma lstrip_decompose (s : string) :
  exists ws, all_space ws = true /\ s = ws +:+ Py.lstrip s.
Proof.
  induction s as [|c s (ws & Hws & Hs)]; [by exists ""|].
  simpl. destruct (Py.isspace c) eqn:Hc.
  - exists (String c ws). simpl. rewrite Hc, Hws. split; [done|].
    rewrite append_cons. by rewrite <- Hs.
  - by exists "".
Qed.

Lemma rstrip_decompose (s : string) :
  exists ws, all_space ws = true /\ s = Py.rstrip s +:+ ws.
Proof.
  destruct (lstrip_decompose (String.rev s)) as (ws & Hws & Hs).
  exists (String.rev ws). split; [by rewrite all_space_rev|].
  unfold Py.rstrip. rewrite <- rev_append, <- Hs. by rewrite rev_involutive.
Qed.

Lemma split_go_blanks (ws : string) :
  all_space ws = true -> Py.split_go None ws = [].
Proof.
  induction ws as [|c ws IH]; [done|]. simpl.
  intros [Hc Hws]%andb_prop. rewrite Hc. auto.
Qed.

Lemma split_go_trailing (s ws : string) (cur : option string) :
  all_space ws = true -> Py.split_go cur (s +:+ ws) = Py.split_go cur s.
Proof.
  intros Hws. revert cur. induction s as [|c s IH]; intros cur.
  - rewrite append_nil_l. destruct ws as [|c ws]; [done|].
    simpl in Hws. apply andb_prop in Hws as [Hc Hws]. simpl. rewrite Hc.
    rewrite (split_go_blanks ws Hws). by destruct cur.
  - rewrite append_cons. simpl. destruct (Py.isspace c).
    + destruct cur; by rewrite IH.
    + apply IH.
Qed.

Lemma split_lstrip (s : string) : Py.split (Py.lstrip s) = Py.split s.
Proof.
  unfold Py.split. induction s as [|c s IH]; [done|].
  simpl. destruct (Py.isspace c) eqn:Hc; [done|]. simpl. by rewrite Hc.
Qed.

Lemma split_strip (s : string) : Py.split (Py.strip s) = Py.split s.
Proof.
  unfold Py.strip. rewrite <- (split_lstrip s).
  destruct (rstrip_decompose (Py.lstrip s)) as (ws & Hws & Hs).
  rewrite Hs at 2. unfold Py.split. by rewrite split_go_trailing.
Qed.

(** ** The coordinate converter *)

Lemma Qc_of_Z_nonzero (n : Z) : n ≠ 0 -> Qc_of_Z n ≠ 0%Qc.
Proof.
  intros Hn H0. rewrite <- Z2Qc_inj_0 in H0. by apply Z2Qc_inj in H0.
Qed.

Lemma true_div_ok (a : Qc) (n : Z) :
  n ≠ 0 -> true_div a (Qc_of_Z n) = Ok (a / Qc_of_Z n)%Qc.
Proof.
  intros Hn. unfold true_div.
  destruct (decide (Qc_of_Z n = 0%Qc)) as [H0|_]; [|reflexivity].
  by apply Qc_of_Z_nonzero in H0.
Qed.

Lemma true_div_zero (a : Qc) : true_div a (Qc_of_Z 0) = Raise ZeroDivisionError.
Proof. reflexivity. Qed.

(** The fields of a four-item box over an image whose sides are not zero. *)
Lemma yolo_fields_ok (xmin ymin width height W H : Z) :
  W ≠ 0 -> H ≠ 0 ->
  yolo_fields [xmin; ymin; width; height] W H =
    Ok (((Qc_of_Z xmin + Qc_of_Z width / 2) / Qc_of_Z W)%Qc,
        ((Qc_of_Z ymin + Qc_of_Z height / 2) / Qc_of_Z H)%Qc,
        (Qc_of_Z width / Qc_of_Z W)%Qc,
        (Qc_of_Z height / Qc_of_Z H)%Qc).
Proof.
  intros HW HH. unfold yolo_fields.
  repeat (rewrite true_div_ok by (done || lia); simpl).
  by rewrite Z2Qc_inj_2.
Qed.

(** A box that reaches past the right edge of the image keeps its centre:
    nothing is clamped to the unit interval. *)
Example yolo_fields_not_clamped :
  exists x_center y_center width_norm height_norm,
    yolo_fields [100; 0; 50; 10] 100 100
      = Ok (x_center, y_center, width_norm, height_norm)
    /\ (1 < x_center)%Qc.
Proof.
  eexists _, _, _, _. split; [apply yolo_fields_ok; lia|].
  reflexivity.
Qed.





(** ** The box lines of a record *)

Section ReadBoxes.

Variable lines : list string.
Variable current_image : string.
Variable num_boxes : Z.

(** The [for] loop reads [n] lines, or all that are left, keeps the
    boxes of those that parse, and warns once when lines are missing. *)
Lemma read_boxes_spec (n index : nat) (boxes : list (list Z)) (lg : log) :
  (index <= length lines)%nat ->
  Convert.read_boxes lines current_image num_boxes n index boxes lg
  = (Nat.min (index + n) (length lines),
     boxes ++ omap (box_of_line current_image) (take n (drop index lines)),
     lg ++ concat (warnings_of_line current_image <$> take n (drop index lines))
        ++ (if decide (length lines < index + n)%nat
            then [(WARNING, NotEnoughBoxLines current_image num_boxes)]
            else [])).
Proof.
  revert index boxes lg.
  induction n as [|n IH]; intros index boxes lg Hle; simpl.
  - rewrite decide_False by lia. rewrite !app_nil_r.
    repeat f_equal. lia.
  - destruct (lines !! index) as [raw|] eqn:Hraw.
    + pose proof (lookup_lt_Some _ _ _ Hraw) as Hlt.
      rewrite (drop_S _ _ _ Hraw). simpl.
      unfold box_of_line at 1, warnings_of_line at 1.
      destruct (Convert.parse_bbox_line current_image (Py.strip raw))
        as [bbox warn] eqn:Hparse.
      rewrite IH by lia.
      f_equal; [f_equal|].
      * lia.
      * destruct bbox as [bbox|]; simpl.
        -- by rewrite <- app_assoc.
        -- by rewrite app_nil_r.
      * simpl. rewrite <- !app_assoc.
        replace (index + S n)%nat with (S (index + n)) by lia.
        reflexivity.
    + apply lookup_ge_None in Hraw.
      rewrite drop_ge by lia. rewrite take_nil. simpl.
      rewrite app_nil_r. rewrite decide_True by lia.
      repeat f_equal. lia.
Qed.

End ReadBoxes.

(** A box line gives no box exactly when the specification drops it. *)
Lemma mapM_int_None (tokens : list string) :
  mapM Py.int tokens = None
  <-> forallb (fun t => bool_decide (is_Some (Py.int t))) tokens = false.
Proof.
  induction tokens as [|t tokens IH]; simpl; [done|].
  destruct (Py.int t) as [z|] eqn:Ht; simpl.
  - rewrite <- IH.
    destruct (mapM Py.int tokens); simpl; split; intros; done.
  - done.
Qed.

Lemma box_of_line_dropped (current_image raw : string) :
  box_of_line current_image raw = None <-> box_line_dropped raw = true.
Proof.
  unfold box_of_line, box_line_dropped, Convert.parse_bbox_line, Convert.map_int.
  rewrite split_strip.
  destruct (4 <=? length (Py.split raw))%nat eqn:Hlen.
  - apply Nat.leb_le in Hlen.
    replace (length (Py.split raw) <? 4)%nat with false
      by (symmetry; apply Nat.ltb_ge; lia).
    simpl. rewrite negb_true_iff, <- mapM_int_None.
    destruct (mapM Py.int (take 4 (Py.split raw))); simpl; split; congruence.
  - apply Nat.leb_gt in Hlen.
    replace (length (Py.split raw) <? 4)%nat with true
      by (symmetry; apply Nat.ltb_lt; lia).
    done.
Qed.


Lemma length_omap_box (current_image : string) (box_lines : list string) :
  (length (omap (box_of_line current_image) box_lines)
   + length (List.filter box_line_dropped box_lines))%nat
  = length box_lines.
Proof.
  induction box_lines as [|raw box_lines IH]; [done|].
  pose proof (box_of_line_dropped current_image raw) as Hd.
  change (omap (box_of_line current_image) (raw :: box_lines))
    with (match box_of_line current_image raw with
          | Some b => b :: omap (box_of_line current_image) box_lines
          | None => omap (box_of_line current_image) box_lines
          end).
  change (List.filter box_line_dropped (raw :: box_lines))
    with (if box_line_dropped raw
          then raw :: List.filter box_line_dropped box_lines
          else List.filter box_line_dropped box_lines).
  destruct (box_of_line current_image raw) as [bbox|];
    destruct (box_line_dropped raw).
  - exfalso. destruct Hd as [_ Hd]. by specialize (Hd eq_refl).
  - rewrite !length_cons. lia.
  - rewrite !length_cons. lia.
  - exfalso. destruct Hd as [Hd _]. by specialize (Hd eq_refl).
Qed.

(** ** What the loop body reads at a line *)

Section Scan.

Variable lines : list string.

Lemma scan_record (i : nat) (raw_img raw_count : string) (n : Z) (lg : log) :
  lines !! i = Some raw_img ->
  is_image_name (Py.strip raw_img) = true ->
  lines !! S i = Some raw_count ->
  Py.int (Py.strip raw_count) = Some n ->
  let current_image := Py.strip raw_img in
  let box_lines := take (Z.to_nat n) (drop (S (S i)) lines) in
  Convert.scan lines i lg
  = (Convert.Record_ current_image n
       (omap (box_of_line current_image) box_lines),
     Nat.min (S (S i) + Z.to_nat n) (length lines),
     (lg ++ [(INFO, FoundImage current_image)]
         ++ [(INFO, NumberOfBoxes current_image n)])
     ++ concat (warnings_of_line current_image <$> box_lines)
     ++ (if decide (length lines < S (S i) + Z.to_nat n)%nat
         then [(WARNING, NotEnoughBoxLines current_image n)]
         else [])).
Proof.
  intros Himg Hname Hcount Hint current_image box_lines.
  subst current_image box_lines.
  unfold Convert.scan. rewrite Himg. cbv zeta. rewrite Hname, Hcount, Hint.
  apply lookup_lt_Some in Hcount.
  rewrite read_boxes_spec by lia.
  by rewrite <- !app_assoc.
Qed.

Lemma scan_bad_count (i : nat) (raw_img raw_count : string) (lg : log) :
  lines !! i = Some raw_img ->
  is_image_name (Py.strip raw_img) = true ->
  lines !! S i = Some raw_count ->
  Py.int (Py.strip raw_count) = None ->
  Convert.scan lines i lg
  = (Convert.BadCountLine (Py.strip raw_img), S (S i),
     (lg ++ [(INFO, FoundImage (Py.strip raw_img))])
     ++ [(WARNING,
          ExpectedNumberOfBoxes (Py.strip raw_img) (Py.strip raw_count))]).
Proof.
  intros Himg Hname Hcount Hint.
  unfold Convert.scan. by rewrite Himg, Hname, Hcount, Hint.
Qed.

(** Each iteration moves forward. *)
Lemma scan_advances (i : nat) (lg : log) :
  (i < length lines)%nat -> (i < (Convert.scan lines i lg).1.2)%nat.
Proof.
  intros Hi. destruct (lookup_lt_is_Some_2 lines i Hi) as [raw Hraw].
  unfold Convert.scan. rewrite Hraw.
  destruct (is_image_name (Py.strip raw)); [|simpl; lia].
  destruct (lines !! S i) as [raw_count|] eqn:Hcount; [|simpl; lia].
  destruct (Py.int (Py.strip raw_count)) as [n|]; [|simpl; lia].
  apply lookup_lt_Some in Hcount.
  rewrite read_boxes_spec by lia. cbn -[Nat.min]. lia.
Qed.

End Scan.

(** C2. For a record whose count line parses to [count] and whose [count]
    box lines are in the input, the parser reads exactly [count] box lines
    (the index moves from the image line past the count line and [count]
    more lines, whether or not a box line is malformed), and the number of
    boxes of the record is [count] minus the number of dropped lines, a
    line being dropped exactly when it has fewer than 4 whitespace-separated
    tokens or its first four tokens do not all parse as integers. *)
Theorem box_lines_consumed (lines : list string) (i : nat)
    (raw_img raw_count : string) (count : Z) (lg : log) :
  lines !! i = Some raw_img ->
  is_image_name (Py.strip raw_img) = true ->
  lines !! S i = Some raw_count ->
  Py.int (Py.strip raw_count) = Some count ->
  0 <= count ->
  (i + 2 + Z.to_nat count <= length lines)%nat ->
  let current_image := Py.strip raw_img in
  let box_lines := take (Z.to_nat count) (drop (i + 2) lines) in
  exists boxes lg',
    Convert.scan lines i lg
    = (Convert.Record_ current_image count boxes,
       (i + 2 + Z.to_nat count)%nat, lg')
    /\ Z.of_nat (length box_lines) = count
    /\ boxes = omap (box_of_line current_image) box_lines
    /\ Z.of_nat (length boxes)
       = count - Z.of_nat (length (List.filter box_line_dropped box_lines))
    /\ (forall raw, In raw box_lines ->
          (box_of_line current_image raw = None
           <-> box_line_dropped raw = true)).
Proof.
  intros Himg Hname Hcount Hint Hpos Hfit current_image box_lines.
  assert (Hlen : length box_lines = Z.to_nat count).
  { unfold box_lines. rewrite length_take, length_drop. lia. }
  eexists _, _. split; [|split; [|split; [reflexivity|split]]].
  - rewrite (scan_record lines i raw_img raw_count count lg) by done.
    cbv zeta. replace (S (S i)) with (i + 2)%nat by lia.
    rewrite Nat.min_l by lia. reflexivity.
  - lia.
  - pose proof (length_omap_box current_image box_lines) as Hsum.
    fold box_lines. lia.
  - intros raw _. apply box_of_line_dropped.
Qed.

Lemma box_lines_consumed_witness :
  exists boxes lg',
    Convert.scan ["a.jpg"; "3"; "1 2 3 4"; "5 6 7"; "8 9 x 11"; "b.jpg"; "0"]
      0 []
    = (Convert.Record_ "a.jpg" 3 boxes, 5%nat, lg')
    /\ boxes = [[1; 2; 3; 4]]
    /\ Z.of_nat (length boxes)
       = 3 - Z.of_nat (length (List.filter box_line_dropped
                                 ["1 2 3 4"; "5 6 7"; "8 9 x 11"])).
Proof.
  destruct (box_lines_consumed
              ["a.jpg"; "3"; "1 2 3 4"; "5 6 7"; "8 9 x 11"; "b.jpg"; "0"]
              0 "a.jpg" "3" 3 [] eq_refl eq_refl eq_refl eq_refl
              ltac:(lia) ltac:(simpl; lia))
    as (boxes & lg' & Hscan & _ & Hboxes & Hcount & _).
  exists boxes, lg'. split; [exact Hscan|]. split; [|exact Hcount].
  rewrite Hboxes. vm_compute. reflexivity.
Defined.

(** ** Paths *)

Lemma has_char_append (c : ascii) (s t : string) :
  has_char c (s +:+ t) = has_char c s || has_char c t.
Proof.
  induction s as [|d s IH]; [done|].
  rewrite append_cons. simpl. by rewrite IH, orb_assoc.
Qed.

Lemma has_char_take (c : ascii) (n : nat) (s : string) :
  has_char c s = false -> has_char c (Py.take n s) = false.
Proof.
  revert n. induction s as [|d s IH]; intros [|n]; simpl; try done.
  intros [Hd Hs]%orb_false_elim. rewrite Hd. simpl. by apply IH.
Qed.

(** [rfind] gives -1 (more generally, [last]) when the character does not
    occur, and otherwise a position after which it does not occur. *)
Lemma rfind_go_absent (c : ascii) (s : string) (i last : Z) :
  has_char c s = false -> Py.rfind_go c s i last = last.
Proof.
  revert i last. induction s as [|d s IH]; intros i last; simpl; [done|].
  intros [Hd Hs]%orb_false_elim. rewrite Hd. by apply IH.
Qed.

Lemma rfind_go_spec (c : ascii) (s : string) (i last : Z) :
  (Py.rfind_go c s i last = last /\ has_char c s = false)
  \/ (i <= Py.rfind_go c s i last
      /\ has_char c (Py.drop (Z.to_nat (Py.rfind_go c s i last - i + 1)) s)
         = false).
Proof.
  revert i last. induction s as [|d s IH]; intros i last; simpl; [by left|].
  destruct (IH (i + 1) (if Ascii.eqb d c then i else last))
    as [[Hr Hs]|[Hr Hs]].
  - rewrite Hr. destruct (Ascii.eqb d c) eqn:Hd; simpl.
    + right. split; [lia|]. by replace (i - i + 1) with 1 by lia.
    + by left.
  - right. split; [lia|].
    replace (Z.to_nat (Py.rfind_go c s (i + 1) (if Ascii.eqb d c then i else last)
                       - i + 1))
      with (S (Z.to_nat (Py.rfind_go c s (i + 1)
                           (if Ascii.eqb d c then i else last) - (i + 1) + 1)))
      by lia.
    exact Hs.
Qed.

(** A base name has no separator. *)
Lemma basename_no_sep (p : string) :
  has_char "/" (OsPath.basename p) = false.
Proof.
  unfold OsPath.basename, Py.rfind.
  destruct (rfind_go_spec OsPath.sep p 0 (-1)) as [[Hr Hs]|[Hr Hs]].
  - by rewrite Hr.
  - by replace (Py.rfind_go OsPath.sep p 0 (-1) - 0 + 1)
      with (Py.rfind_go OsPath.sep p 0 (-1) + 1) in Hs by lia.
Qed.

(** A path without separator is its own base name. *)
Lemma basename_flat (p : string) :
  has_char "/" p = false -> OsPath.basename p = p.
Proof.
  intros Hp. unfold OsPath.basename, Py.rfind.
  by rewrite (rfind_go_absent OsPath.sep p 0 (-1) Hp).
Qed.

Lemma splitext_no_sep (p : string) :
  has_char "/" p = false -> has_char "/" (OsPath.splitext p).1 = false.
Proof.
  intros Hp. unfold OsPath.splitext.
  destruct (_ <? _); [|done].
  destruct (OsPath.all_dots _); [done|]. simpl. by apply has_char_take.
Qed.

Lemma prefix_cons (a b : ascii) (p s : string) :
  String.prefix (String a p) (String b s)
  = if ascii_dec a b then String.prefix p s else false.
Proof. reflexivity. Qed.

(** [os.path.join] keeps the end of its second argument. *)
Lemma prefix_append (p s t : string) :
  String.prefix p s = true -> String.prefix p (s +:+ t) = true.
Proof.
  revert s. induction p as [|c p IH]; intros s.
  - intros _. by destruct (s +:+ t).
  - destruct s as [|d s]; [by simpl|]. rewrite append_cons, !prefix_cons.
    destruct (ascii_dec c d); [|done]. apply IH.
Qed.

Lemma endswith_append (a b suffix : string) :
  Py.endswith b suffix = true -> Py.endswith (a +:+ b) suffix = true.
Proof.
  unfold Py.endswith. rewrite rev_append. apply prefix_append.
Qed.

Lemma endswith_join (a b suffix : string) :
  Py.endswith b suffix = true -> Py.endswith (OsPath.join a b) suffix = true.
Proof.
  intros Hb. unfold OsPath.join.
  destruct (Py.startswith b "/"); [done|].
  destruct (_ || _); [by apply endswith_append|].
  apply endswith_append. by apply endswith_append.
Qed.

Lemma endswith_self (s suffix : string) : Py.endswith (s +:+ suffix) suffix = true.
Proof.
  apply endswith_append. unfold Py.endswith.
  induction (String.rev suffix) as [|c r IH]; [done|].
  rewrite prefix_cons. by destruct (ascii_dec c c).
Qed.

(** The YOLO file and the VOC file of a record are different files. *)
Lemma yolo_path_not_xml_path (p q dy dv : string) :
  yolo_output_path p dy ≠ xml_output_path q dv.
Proof.
  unfold yolo_output_path, xml_output_path. intros Heq.
  pose proof (endswith_join dy _ ".txt" (endswith_self (OsPath.splitext p).1 ".txt"))
    as Htxt.
  pose proof (endswith_join dv _ ".xml"
                (endswith_self (OsPath.splitext (OsPath.basename q)).1 ".xml"))
    as Hxml.
  rewrite <- Heq in Hxml. unfold Py.endswith in Htxt, Hxml.
  change (String.rev ".txt") with "txt." in Htxt.
  change (String.rev ".xml") with "lmx." in Hxml.
  destruct (String.rev (OsPath.join dy _)) as [|c r]; [done|].
  rewrite prefix_cons in Htxt, Hxml.
  destruct (ascii_dec "t" c) as [<-|]; [|done].
  by destruct (ascii_dec "l" "t").
Qed.

(** ** The conversion pass *)

Section ConversionPass.

Variable float_repr : Qc -> string.
Variable image_open : string -> option (Z * Z).
Variable open_ok : string -> bool.
Variables output_yolo_dir output_voc_dir image_dir : string.
Variable lines : list string.

Abbreviation process_record :=
  (Convert.process_record float_repr image_open open_ok
     output_yolo_dir output_voc_dir image_dir).
Abbreviation loop_body :=
  (Convert.loop_body float_repr image_open open_ok
     output_yolo_dir output_voc_dir image_dir lines).
Abbreviation while_loop :=
  (Convert.while_loop float_repr image_open open_ok
     output_yolo_dir output_voc_dir image_dir lines).
Abbreviation process_annotations :=
  (Convert.process_annotations float_repr image_open open_ok
     output_yolo_dir output_voc_dir image_dir lines).

Abbreviation opened_path := (image_path_of image_dir).

Lemma save_yolo_index (p d : string) (boxes : list (list Z)) (W H : Z)
    (st : Convert.state) :
  Convert.index (Convert.save_yolo float_repr open_ok p d boxes W H st)
  = Convert.index st.
Proof.
  unfold Convert.save_yolo. destruct (open_ok _); [|done].
  by destruct (Convert.write_boxes _ _ _ _ _) as [? [?|]].
Qed.

Lemma save_voc_index (img p d : string) (boxes : list (list Z)) (W H : Z)
    (st : Convert.state) :
  Convert.index (Convert.save_voc open_ok img p d boxes W H st)
  = Convert.index st.
Proof.
  unfold Convert.save_voc.
  by destruct (Convert.create_voc_xml _ _ _ _ _ _ _ _) as [[[?|] ?] ?].
Qed.

Lemma save_yolo_voc_count (p d : string) (boxes : list (list Z)) (W H : Z)
    (st : Convert.state) :
  Convert.voc_file_count
    (Convert.save_yolo float_repr open_ok p d boxes W H st)
  = Convert.voc_file_count st.
Proof.
  unfold Convert.save_yolo. destruct (open_ok _); [|done].
  by destruct (Convert.write_boxes _ _ _ _ _) as [? [?|]].
Qed.

(** The VOC file of a record, when it can be written. *)
Lemma save_voc_written (img p d : string) (boxes : list (list Z)) (W H : Z)
    (st : Convert.state) :
  open_ok (xml_output_path p d) = true ->
  Convert.save_voc open_ok img p d boxes W H st
  = Convert.State (Convert.index st) (Convert.yolo_file_count st)
      (S (Convert.voc_file_count st))
      (<[xml_output_path p d :=
           XmlFile (voc_annotation p W H boxes d (Convert.logs st)).1]>
         (Convert.files st))
      ((voc_annotation p W H boxes d (Convert.logs st)).2
       ++ [(INFO, XmlSavedTo (xml_output_path p d))]).
Proof.
  intros Hok. unfold Convert.save_voc, Convert.create_voc_xml.
  destruct (voc_annotation p W H boxes d (Convert.logs st))
    as [annotation lg].
  by rewrite Hok.
Qed.

(** The document does not depend on the log. *)
Lemma voc_objects_log (boxes : list (list Z)) (lg : log) :
  (voc_objects boxes lg).1 = (voc_objects boxes []).1.
Proof.
  revert lg. induction boxes as [|bbox boxes IH]; intros lg; [done|].
  simpl. destruct bbox as [|b0 [|b1 [|b2 [|b3 [|b4 rest]]]]];
    try (by rewrite IH, (IH [_])).
  rewrite (surjective_pairing (voc_objects boxes lg)).
  rewrite (surjective_pairing (voc_objects boxes [])).
  simpl. by rewrite IH.
Qed.

Lemma voc_annotation_root (p d : string) (boxes : list (list Z)) (W H : Z)
    (lg : log) :
  (voc_annotation p W H boxes d lg).1
  = Element "annotation" None
      (voc_fixed_fields p W H d ++ (voc_objects boxes []).1).
Proof.
  unfold voc_annotation.
  rewrite (surjective_pairing (voc_objects boxes lg)). simpl.
  by rewrite voc_objects_log.
Qed.

(** An image that cannot be opened: the record leaves three log records
    and nothing else. *)
Lemma process_record_unreadable (current_image : string)
    (boxes : list (list Z)) (st : Convert.state) :
  image_open (opened_path current_image) = None ->
  process_record current_image boxes st
  = Convert.State (Convert.index st) (Convert.yolo_file_count st)
      (Convert.voc_file_count st) (Convert.files st)
      (((Convert.logs st
         ++ [(INFO, TryingToOpen (opened_path current_image))])
        ++ [(ERROR, ErrorOpeningImage (opened_path current_image))])
       ++ [(WARNING, SkippingImage current_image)]).
Proof.
  intros Hopen. unfold Convert.process_record, Convert.get_image_size.
  fold (opened_path current_image). by rewrite Hopen.
Qed.

(** An image that opens: the YOLO file, then the VOC file. *)
Lemma process_record_readable (current_image : string)
    (boxes : list (list Z)) (W H : Z) (st : Convert.state) :
  image_open (opened_path current_image) = Some (W, H) ->
  process_record current_image boxes st
  = Convert.save_voc open_ok current_image (OsPath.normpath current_image)
      output_voc_dir boxes W H
      (Convert.save_yolo float_repr open_ok
         (OsPath.normpath current_image) output_yolo_dir boxes W H
         (Convert.State (Convert.index st) (Convert.yolo_file_count st)
            (Convert.voc_file_count st) (Convert.files st)
            (Convert.logs st
             ++ [(INFO, TryingToOpen (opened_path current_image))]))).
Proof.
  intros Hopen. unfold Convert.process_record, Convert.get_image_size.
  fold (opened_path current_image). by rewrite Hopen.
Qed.

Lemma process_record_index (current_image : string)
    (boxes : list (list Z)) (st : Convert.state) :
  Convert.index (process_record current_image boxes st) = Convert.index st.
Proof.
  destruct (image_open (opened_path current_image)) as [[W H]|] eqn:Hopen.
  - rewrite (process_record_readable _ _ W H) by done.
    by rewrite save_voc_index, save_yolo_index.
  - by rewrite process_record_unreadable.
Qed.

Lemma loop_body_index (st : Convert.state) :
  Convert.index (loop_body st).2
  = (Convert.scan lines (Convert.index st) (Convert.logs st)).1.2.
Proof.
  unfold Convert.loop_body.
  destruct (Convert.scan lines (Convert.index st) (Convert.logs st))
    as [[sc index'] lg].
  destruct sc; simpl; try done. apply process_record_index.
Qed.

(** The loop comes to its end: fuel for the lines that are left and for
    the last test is enough. *)
Lemma while_loop_total (fuel : nat) (st : Convert.state) :
  (length lines - Convert.index st < fuel)%nat ->
  is_Some (while_loop fuel st).
Proof.
  revert st. induction fuel as [|fuel IH]; intros st Hfuel; [lia|].
  simpl. destruct (Convert.index st <? length lines)%nat eqn:Hlt; [|eauto].
  apply Nat.ltb_lt in Hlt.
  pose proof (scan_advances lines (Convert.index st) (Convert.logs st) Hlt)
    as Hadv.
  rewrite <- loop_body_index in Hadv.
  destruct (loop_body st) as [[|] st']; [|eauto].
  apply IH. simpl in Hadv. lia.
Qed.


(** An iteration that does not break hands over to the next one. *)
Lemma while_loop_step (fuel : nat) (st st' : Convert.state) :
  (Convert.index st < length lines)%nat ->
  loop_body st = (Convert.Continue, st') ->
  while_loop (S fuel) st = while_loop fuel st'.
Proof.
  intros Hlt Hbody. simpl.
  replace (Convert.index st <? length lines)%nat with true
    by (symmetry; apply Nat.ltb_lt; lia).
  by rewrite Hbody.
Qed.

(** At the end of the input the loop stops with the state it has. *)
Lemma while_loop_at_end (fuel : nat) (st : Convert.state) :
  (length lines <= Convert.index st)%nat ->
  while_loop (S fuel) st = Some st.
Proof.
  intros Hend. simpl.
  by replace (Convert.index st <? length lines)%nat with false
    by (symmetry; apply Nat.ltb_ge; lia).
Qed.

(** C7. When the image of a record cannot be opened, the conversion
    pass writes no file for it (neither YOLO nor VOC), leaves both
    counters as they are, logs that the image is skipped, and goes on
    with the line after the record: the loop is not left. *)
Theorem unreadable_image_skipped (st : Convert.state)
    (raw_img raw_count : string) (n : Z) :
  lines !! Convert.index st = Some raw_img ->
  is_image_name (Py.strip raw_img) = true ->
  lines !! S (Convert.index st) = Some raw_count ->
  Py.int (Py.strip raw_count) = Some n ->
  image_open (opened_path (Py.strip raw_img)) = None ->
  exists st',
    loop_body st = (Convert.Continue, st')
    /\ Convert.files st' = Convert.files st
    /\ Convert.yolo_file_count st' = Convert.yolo_file_count st
    /\ Convert.voc_file_count st' = Convert.voc_file_count st
    /\ Convert.index st'
       = Nat.min (Convert.index st + 2 + Z.to_nat n) (length lines)
    /\ (Convert.index st < Convert.index st')%nat
    /\ (WARNING, SkippingImage (Py.strip raw_img)) ∈ Convert.logs st'
    /\ (forall fuel, while_loop (S fuel) st = while_loop fuel st').
Proof.
  intros Himg Hname Hcount Hint Hopen.
  pose proof (lookup_lt_Some _ _ _ Himg) as Hlt.
  pose proof (lookup_lt_Some _ _ _ Hcount) as Hlt'.
  assert (Hbody : loop_body st
    = (Convert.Continue,
       process_record (Py.strip raw_img)
         (omap (box_of_line (Py.strip raw_img))
            (take (Z.to_nat n) (drop (S (S (Convert.index st))) lines)))
         (Convert.State
            (Nat.min (S (S (Convert.index st)) + Z.to_nat n) (length lines))
            (Convert.yolo_file_count st) (Convert.voc_file_count st)
            (Convert.files st)
            (Convert.scan lines (Convert.index st) (Convert.logs st)).2))).
  { unfold Convert.loop_body.
    by rewrite (scan_record lines _ raw_img raw_count n) by done. }
  rewrite process_record_unreadable in Hbody by done.
  eexists. split; [exact Hbody|]. cbn -[Nat.min].
  repeat split; try done.
  - f_equal. lia.
  - lia.
  - apply list_elem_of_In, in_or_app. right. by left.
  - intros fuel. by apply while_loop_step.
Qed.


(** C6 (as amended). For an image-path line whose following line does
    not parse as an integer, the parser logs a warning, skips only that
    line (the lines after it are not read as box lines), gives the image
    no record (no file is written, no counter moves), and resumes the
    scan at the next line. A following line that is a negative integer
    does parse: it is the count of a record with no boxes, no warning is
    logged for it and no box line is read. *)
Theorem unparsable_count_line (st : Convert.state)
    (raw_img raw_count : string) :
  lines !! Convert.index st = Some raw_img ->
  is_image_name (Py.strip raw_img) = true ->
  lines !! S (Convert.index st) = Some raw_count ->
  let current_image := Py.strip raw_img in
  (Py.int (Py.strip raw_count) = None ->
     loop_body st
     = (Convert.Continue,
        Convert.State (Convert.index st + 2) (Convert.yolo_file_count st)
          (Convert.voc_file_count st) (Convert.files st)
          ((Convert.logs st ++ [(INFO, FoundImage current_image)])
           ++ [(WARNING,
                ExpectedNumberOfBoxes current_image (Py.strip raw_count))])))
  /\ (forall n, Py.int (Py.strip raw_count) = Some n -> n < 0 ->
       Convert.scan lines (Convert.index st) (Convert.logs st)
       = (Convert.Record_ current_image n [],
          (Convert.index st + 2)%nat,
          (Convert.logs st ++ [(INFO, FoundImage current_image)])
          ++ [(INFO, NumberOfBoxes current_image n)])).
Proof.
  intros Himg Hname Hcount current_image.
  pose proof (lookup_lt_Some _ _ _ Hcount) as Hlt'.
  split.
  - intros Hint. unfold Convert.loop_body.
    rewrite (scan_bad_count lines _ raw_img raw_count) by done.
    by replace (S (S (Convert.index st))) with (Convert.index st + 2)%nat
      by lia.
  - intros n Hint Hneg.
    rewrite (scan_record lines _ raw_img raw_count n) by done.
    cbv zeta. fold current_image.
    replace (Z.to_nat n) with 0%nat by lia.
    rewrite take_0. simpl concat. simpl omap.
    rewrite decide_False by lia. rewrite !app_nil_r.
    rewrite Nat.min_l by lia.
    replace (S (S (Convert.index st)) + 0)%nat
      with (Convert.index st + 2)%nat by lia.
    by rewrite <- !app_assoc.
Qed.

Lemma voc_objects_nil (lg : log) : voc_objects [] lg = ([], lg).
Proof. reflexivity. Qed.

(** C8. A record whose count is 0, for an image that opens and files
    that can be written, is a complete record: its VOC document has the
    fixed fields (folder, filename, source/database, size, segmented) and
    no [object] element, its YOLO file is written and is empty, and both
    counters move by one. *)
Theorem zero_count_record (st : Convert.state)
    (raw_img raw_count : string) (W H : Z) :
  lines !! Convert.index st = Some raw_img ->
  is_image_name (Py.strip raw_img) = true ->
  lines !! S (Convert.index st) = Some raw_count ->
  Py.int (Py.strip raw_count) = Some 0 ->
  let current_image := Py.strip raw_img in
  let normalized_image_path := OsPath.normpath current_image in
  let yolo_path := yolo_output_path normalized_image_path output_yolo_dir in
  let xml_path := xml_output_path normalized_image_path output_voc_dir in
  image_open (opened_path current_image) = Some (W, H) ->
  open_ok yolo_path = true ->
  open_ok xml_path = true ->
  exists st' root,
    loop_body st = (Convert.Continue, st')
    /\ Convert.files st' !! yolo_path = Some (TextFile "")
    /\ Convert.files st' !! xml_path = Some (XmlFile root)
    /\ root
       = Element "annotation" None
           [ leaf "folder" (OsPath.basename output_voc_dir);
             leaf "filename" (OsPath.basename normalized_image_path);
             Element "source" None [ leaf "database" "WIDER Face" ];
             Element "size" None
               [ leaf "width" (Py.str W); leaf "height" (Py.str H);
                 leaf "depth" "3" ];
             leaf "segmented" "0" ]
    /\ findall "object" root = []
    /\ Convert.yolo_file_count st' = S (Convert.yolo_file_count st)
    /\ Convert.voc_file_count st' = S (Convert.voc_file_count st)
    /\ Convert.index st' = (Convert.index st + 2)%nat.
Proof.
  intros Himg Hname Hcount Hint current_image normalized_image_path
    yolo_path xml_path Hopen Hyolo Hxml.
  pose proof (lookup_lt_Some _ _ _ Hcount) as Hlt'.
  eexists _, _. split.
  - unfold Convert.loop_body.
    rewrite (scan_record lines _ raw_img raw_count 0) by done.
    cbv zeta. fold current_image.
    change (Z.to_nat 0) with 0%nat. rewrite take_0.
    change (omap (box_of_line current_image) []) with (@nil (list Z)).
    rewrite (process_record_readable _ _ W H) by done.
    fold normalized_image_path.
    unfold Convert.save_yolo. fold yolo_path. rewrite Hyolo.
    change (Convert.write_boxes float_repr [] W H "") with ("", @None exn).
    cbv iota beta.
    unfold Convert.save_voc, Convert.create_voc_xml, voc_annotation.
    rewrite voc_objects_nil. fold xml_path. cbn [Convert.files Convert.logs].
    rewrite Hxml. reflexivity.
  - cbn [Convert.files Convert.yolo_file_count Convert.voc_file_count
         Convert.index].
    split; [|split; [apply lookup_insert_eq|]].
    + rewrite lookup_insert_ne
        by (apply not_eq_sym, yolo_path_not_xml_path).
      apply lookup_insert_eq.
    + split; [by rewrite app_nil_r|].
      split; [by rewrite app_nil_r|].
      repeat split. rewrite Nat.min_l by lia. lia.
Qed.

(** C3 (as amended). For a record that is converted (its image opens and
    the VOC file can be written), the VOC document is the content, after
    the record, of the file <outputVocDir>/<stem>.xml where <stem> is the
    base name of the normalised image path without its extension:
    whatever was at that path is replaced, the name has no separator, so
    the directory part of the image path is dropped, and the path is the
    one of the specification when the image path has no directory
    part. *)
Theorem voc_file_path (current_image : string) (boxes : list (list Z))
    (W H : Z) (st : Convert.state) :
  let normalized_image_path := OsPath.normpath current_image in
  let name :=
    (OsPath.splitext (OsPath.basename normalized_image_path)).1 +:+ ".xml" in
  image_open (opened_path current_image) = Some (W, H) ->
  open_ok (OsPath.join output_voc_dir name) = true ->
  let st' := process_record current_image boxes st in
  has_char "/" name = false
  /\ Convert.files st' !! OsPath.join output_voc_dir name
     = Some (XmlFile
               (Element "annotation" None
                  (voc_fixed_fields normalized_image_path W H output_voc_dir
                   ++ (voc_objects boxes []).1)))
  /\ Convert.voc_file_count st' = S (Convert.voc_file_count st)
  /\ (has_char "/" normalized_image_path = false ->
      OsPath.join output_voc_dir name
      = voc_path_in_spec output_voc_dir current_image).
Proof.
  intros normalized_image_path name Hopen Hok st'.
  assert (Hst' : st' = process_record current_image boxes st) by done.
  rewrite (process_record_readable _ _ W H) in Hst' by done.
  fold normalized_image_path in Hst'.
  rewrite save_voc_written in Hst' by done.
  split; [|split; [|split]].
  - unfold name. rewrite has_char_append.
    rewrite splitext_no_sep by apply basename_no_sep. reflexivity.
  - rewrite Hst'. cbn [Convert.files].
    unfold xml_output_path. fold name.
    by rewrite lookup_insert_eq, voc_annotation_root.
  - rewrite Hst'. cbn [Convert.voc_file_count].
    by rewrite save_yolo_voc_count.
  - intros Hflat. unfold name, voc_path_in_spec.
    fold normalized_image_path. by rewrite basename_flat.
Qed.

End ConversionPass.

(** ** The conversion pass on examples *)

Lemma unreadable_image_skipped_witness :
  let lines := ["missing.jpg"; "1"; "1 2 3 4"; parade; "0"] in
  exists st',
    Convert.loop_body fraction_repr example_image_open always_writable
      "output/yolo" "output/voc" "images" lines (Convert.initial lines ∅)
    = (Convert.Continue, st')
    /\ Convert.files st' = ∅
    /\ Convert.yolo_file_count st' = 0%nat
    /\ Convert.voc_file_count st' = 0%nat
    /\ Convert.index st' = 3%nat.
Proof.
  intros lines.
  destruct (unreadable_image_skipped fraction_repr example_image_open
              always_writable "output/yolo" "output/voc" "images" lines
              (Convert.initial lines ∅) "missing.jpg" "1" 1
              eq_refl eq_refl eq_refl eq_refl eq_refl)
    as (st' & Hbody & Hfiles & Hyolo & Hvoc & Hindex & _).
  exists st'. repeat split; assumption.
Defined.


Lemma unparsable_count_line_witness :
  let lines := [parade; "two"; "449 330 122 149"; "1 2 3 4"] in
  Convert.loop_body fraction_repr example_image_open always_writable
    "output/yolo" "output/voc" "images" lines (Convert.State 0 0 0 ∅ [])
  = (Convert.Continue,
     Convert.State 2 0 0 ∅
       [(INFO, FoundImage parade);
        (WARNING, ExpectedNumberOfBoxes parade "two")]).
Proof.
  intros lines.
  exact (proj1 (unparsable_count_line fraction_repr example_image_open
                  always_writable "output/yolo" "output/voc" "images" lines
                  (Convert.State 0 0 0 ∅ []) parade "two"
                  eq_refl eq_refl eq_refl) eq_refl).
Defined.

(** A count line that holds a negative integer is not a non-negative
    integer, and yet no warning is logged for it: the image gets a record
    with no boxes, and both of its files are written. *)
Lemma negative_count_line_accepted :
  let lines := [parade; "-3"; "449 330 122 149"] in
  parses_as_count (Py.strip "-3") = false
  /\ Convert.scan lines 0 []
     = (Convert.Record_ parade (-3) [], 2%nat,
        [(INFO, FoundImage parade); (INFO, NumberOfBoxes parade (-3))])
  /\ ~ (exists lg,
          Convert.scan lines 0 [] = (Convert.BadCountLine parade, 2%nat, lg))
  /\ (Convert.yolo_file_count <$> example_pass lines) = Some 1%nat
  /\ (Convert.voc_file_count <$> example_pass lines) = Some 1%nat
  /\ (List.filter is_warning <$> (Convert.logs <$> example_pass lines))
     = Some [(WARNING, UnexpectedLine "449 330 122 149")].
Proof.
  intros lines. split; [reflexivity|]. split; [reflexivity|].
  split; [by intros [lg Hlg]|].
  repeat split; vm_compute; reflexivity.
Qed.

Lemma zero_count_record_witness :
  let lines := [parade; "0"] in
  exists st' root,
    Convert.loop_body fraction_repr example_image_open always_writable
      "output/yolo" "output/voc" "images" lines (Convert.initial lines ∅)
    = (Convert.Continue, st')
    /\ Convert.files st' !! "output/yolo/0--Parade/0_Parade_marchingband_1_849.txt"
       = Some (TextFile "")
    /\ Convert.files st' !! "output/voc/0_Parade_marchingband_1_849.xml"
       = Some (XmlFile root)
    /\ findall "object" root = []
    /\ tag_of <$> children_of root
       = ["folder"; "filename"; "source"; "size"; "segmented"].
Proof.
  intros lines.
  destruct (zero_count_record fraction_repr example_image_open
              always_writable "output/yolo" "output/voc" "images" lines
              (Convert.initial lines ∅) parade "0" 1024 683
              eq_refl eq_refl eq_refl eq_refl eq_refl eq_refl eq_refl)
    as (st' & root & Hbody & Hyolo & Hxml & Hroot & Hobj & _).
  exists st', root. split; [exact Hbody|]. split; [exact Hyolo|].
  split; [exact Hxml|]. split; [exact Hobj|]. by rewrite Hroot.
Defined.

Lemma voc_file_path_witness :
  Convert.files
    (Convert.process_record fraction_repr example_image_open always_writable
       "output/yolo" "output/voc" "images" parade [[449; 330; 122; 149]]
       (Convert.State 3 0 0 ∅ []))
    !! "output/voc/0_Parade_marchingband_1_849.xml"
  = Some (XmlFile
            (Element "annotation" None
               (voc_fixed_fields parade 1024 683 "output/voc"
                ++ [voc_object 449 330 122 149]))).
Proof.
  exact (proj1 (proj2 (voc_file_path fraction_repr example_image_open
                         always_writable "output/yolo" "output/voc" "images"
                         parade [[449; 330; 122; 149]] 1024 683
                         (Convert.State 3 0 0 ∅ []) eq_refl eq_refl))).
Defined.

(** The VOC file of an image in a subdirectory is not at the path of the
    specification: it is in the output directory itself. *)
Lemma voc_path_drops_subdirectory :
  voc_path_in_spec "output/voc" parade
  = "output/voc/0--Parade/0_Parade_marchingband_1_849.xml"
  /\ xml_output_path (OsPath.normpath parade) "output/voc"
     = "output/voc/0_Parade_marchingband_1_849.xml"
  /\ (exists st,
        example_pass [parade; "1"; "449 330 122 149"] = Some st
        /\ Convert.voc_file_count st = 1%nat
        /\ Convert.files st !! voc_path_in_spec "output/voc" parade = None
        /\ is_Some (Convert.files st
                     !! "output/voc/0_Parade_marchingband_1_849.xml")).
Proof.
  split; [reflexivity|]. split; [reflexivity|].
  destruct (example_pass [parade; "1"; "449 330 122 149"]) as [st|] eqn:Hst;
    [|by vm_compute in Hst].
  exists st. split; [reflexivity|].
  assert (Some st = example_pass [parade; "1"; "449 330 122 149"]) as Heq
    by done.
  vm_compute in Heq. injection Heq as ->.
  split; [reflexivity|]. split; [by vm_compute|]. by vm_compute; eauto.
Qed.

(** ** The filter pass *)

Lemma getitem_middle (pre rest : list string) (x : string) :
  Filter.getitem (pre ++ x :: rest) (Z.of_nat (length pre)) = Ok x.
Proof.
  unfold Filter.getitem.
  replace (Z.of_nat (length pre) <? 0) with false
    by (symmetry; apply Z.ltb_ge; lia).
  cbv zeta. rewrite Nat2Z.id.
  replace (Z.of_nat (length pre) <? 0) with false
    by (symmetry; apply Z.ltb_ge; lia).
  by rewrite list_lookup_middle by done.
Qed.

(** The copy loop over the box lines of a record that is all there. *)
Lemma copy_boxes_spec (current_image : string) (num_boxes : Z)
    (boxes pre rest filtered : list string) (lg : log) :
  Filter.copy_boxes (pre ++ boxes ++ rest) current_image num_boxes
    (length boxes) (Z.of_nat (length pre)) filtered lg
  = Ok (Z.of_nat (length pre + length boxes),
        filtered ++ (emitted <$> boxes), lg).
Proof.
  revert pre filtered. induction boxes as [|b boxes IH]; intros pre filtered.
  - simpl. rewrite app_nil_r. repeat f_equal. lia.
  - cbn [Filter.copy_boxes length].
    replace (Z.of_nat (length (pre ++ (b :: boxes) ++ rest))
             <=? Z.of_nat (length pre)) with false
      by (symmetry; apply Z.leb_gt; rewrite !length_app; simpl; lia).
    change ((b :: boxes) ++ rest) with (b :: boxes ++ rest).
    rewrite getitem_middle. cbn [bind].
    replace (pre ++ b :: boxes ++ rest) with ((pre ++ [b]) ++ boxes ++ rest)
      by (by rewrite <- app_assoc).
    replace (Z.of_nat (length pre) + 1) with (Z.of_nat (length (pre ++ [b])))
      by (rewrite length_app; simpl; lia).
    rewrite IH. rewrite length_app.
    replace (length pre + length [b] + length boxes)%nat
      with (length pre + S (length boxes))%nat by (simpl; lia).
    by rewrite <- app_assoc.
Qed.

Lemma getitem_at (lines pre rest : list string) (x : string) (index : Z) :
  lines = pre ++ x :: rest ->
  index = Z.of_nat (length pre) ->
  Filter.getitem lines index = Ok x.
Proof. intros -> ->. apply getitem_middle. Qed.

Lemma copy_boxes_at (lines : list string) (current_image : string)
    (num_boxes : Z) (n : nat) (index : Z)
    (boxes pre rest filtered : list string) (lg : log) :
  lines = pre ++ boxes ++ rest ->
  n = length boxes ->
  index = Z.of_nat (length pre) ->
  Filter.copy_boxes lines current_image num_boxes n index filtered lg
  = Ok (index + Z.of_nat (length boxes), filtered ++ (emitted <$> boxes), lg).
Proof.
  intros -> -> ->. rewrite copy_boxes_spec. repeat f_equal. lia.
Qed.

Section FilterPass.

Variable path_exists : string -> bool.
Variable open_ok : string -> bool.
Variables image_dir output_annotations_file : string.

Abbreviation filter_body := (Filter.loop_body path_exists image_dir).
Abbreviation filter_loop := (Filter.while_loop path_exists image_dir).
Abbreviation present :=
  (fun r : annotation_record => path_exists (resolved image_dir r)).

(** One iteration at the image line of a well-formed record. *)
Lemma filter_body_record (pre rest : list string) (r : annotation_record)
    (st : Filter.state) :
  well_formed r ->
  Filter.index st = Z.of_nat (length pre) ->
  filter_body (pre ++ block r ++ rest) st
  = Ok (Filter.Continue,
        if present r then
          Filter.State (Z.of_nat (length (pre ++ block r)))
            (Filter.filtered_lines st ++ (emitted <$> block r))
            (Filter.missing_images st)
            (S (Filter.processed_images st)) (Filter.logs st)
        else
          Filter.State (Z.of_nat (length (pre ++ block r)))
            (Filter.filtered_lines st)
            (Filter.missing_images st ++ [Py.strip (image_line r)])
            (Filter.processed_images st) (Filter.logs st)).
Proof.
  intros [Hname Hint] Hindex.
  destruct r as [img cnt boxes]. simpl in Hname, Hint.
  unfold block, resolved. cbn [image_line count_line box_lines].
  set (lines := pre ++ (img :: cnt :: boxes) ++ rest).
  assert (Hl1 : lines = pre ++ img :: (cnt :: boxes ++ rest)) by done.
  assert (Hl2 : lines = (pre ++ [img]) ++ cnt :: (boxes ++ rest))
    by (unfold lines; by rewrite <- app_assoc).
  assert (Hl3 : lines = (pre ++ [img; cnt]) ++ boxes ++ rest)
    by (unfold lines; by rewrite <- app_assoc).
  assert (Htotal : Filter.total_lines lines
                   = Z.of_nat (length pre) + 2 + Z.of_nat (length boxes)
                     + Z.of_nat (length rest)).
  { unfold Filter.total_lines. rewrite Hl1, !length_app. simpl.
    rewrite length_app. lia. }
  unfold Filter.loop_body.
  rewrite (getitem_at lines pre _ img _ Hl1 Hindex). cbn [bind].
  rewrite Hname.
  replace (Filter.total_lines lines <=? Filter.index st + 1) with false
    by (symmetry; apply Z.leb_gt; lia).
  rewrite (getitem_at lines (pre ++ [img]) _ cnt _ Hl2)
    by (rewrite length_app; simpl; lia).
  cbn [bind]. rewrite Hint.
  destruct (path_exists _).
  - rewrite (copy_boxes_at lines _ _ _ _ boxes (pre ++ [img; cnt]) rest)
      by (try done; rewrite ?Nat2Z.id, ?length_app; simpl; lia).
    cbn [bind]. do 3 f_equal.
    + rewrite !length_app. simpl. lia.
    + simpl. rewrite <- !app_assoc. reflexivity.
  - do 3 f_equal. rewrite !length_app. simpl. lia.
Qed.

Lemma filter_body_index_lt (pre rest : list string) (r : annotation_record) :
  Z.of_nat (length pre) < Filter.total_lines (pre ++ block r ++ rest).
Proof.
  unfold Filter.total_lines, block. rewrite !length_app. simpl. lia.
Qed.

(** The loop over the records of a well-formed file. *)
Lemma filter_loop_records (records : list annotation_record)
    (pre : list string) (st : Filter.state) (fuel : nat) :
  Forall well_formed records ->
  Filter.index st = Z.of_nat (length pre) ->
  (length records < fuel)%nat ->
  filter_loop (pre ++ concat (block <$> records)) fuel st
  = Filter.Finished
      (Filter.State
         (Z.of_nat (length (pre ++ concat (block <$> records))))
         (Filter.filtered_lines st
          ++ concat ((fun r => emitted <$> block r)
                       <$> List.filter present records))
         (Filter.missing_images st
          ++ ((fun r => Py.strip (image_line r))
                <$> List.filter (fun r => negb (present r)) records))
         (Filter.processed_images st
          + length (List.filter present records))
         (Filter.logs st)).
Proof.
  intros Hwf. revert pre st fuel.
  induction Hwf as [|r records Hr Hwf IH]; intros pre st fuel Hindex Hfuel.
  - destruct fuel as [|fuel]; [simpl in Hfuel; lia|].
    simpl. rewrite !app_nil_r.
    replace (Filter.index st <? Filter.total_lines pre) with false
      by (symmetry; apply Z.ltb_ge; unfold Filter.total_lines; lia).
    destruct st as [i f m p l]. simpl in *. subst i.
    by rewrite Nat.add_0_r.
  - destruct fuel as [|fuel]; [simpl in Hfuel; lia|].
    simpl in Hfuel.
    change (concat (block <$> r :: records))
      with (block r ++ concat (block <$> records)).
    cbn [Filter.while_loop].
    replace (Filter.index st
             <? Filter.total_lines
                  (pre ++ block r ++ concat (block <$> records)))
      with true
      by (symmetry; apply Z.ltb_lt; rewrite Hindex;
          apply filter_body_index_lt).
    rewrite (filter_body_record pre _ r st Hr Hindex).
    replace (pre ++ block r ++ concat (block <$> records))
      with ((pre ++ block r) ++ concat (block <$> records))
      by (by rewrite <- app_assoc).
    rewrite IH; [|by destruct (present r)|lia].
    cbn [List.filter]. destruct (present r); cbn [negb fmap list_fmap concat
      Filter.index Filter.filtered_lines Filter.missing_images
      Filter.processed_images Filter.logs length].
    + rewrite <- !app_assoc. do 2 f_equal. lia.
    + rewrite <- !app_assoc. reflexivity.
Qed.

Lemma emitted_clean (f : annotation_record -> bool)
    (records : list annotation_record) :
  Forall (fun raw => emitted raw = raw) (concat (block <$> records)) ->
  concat ((fun r => emitted <$> block r) <$> List.filter f records)
  = concat (block <$> List.filter f records).
Proof.
  induction records as [|r records IH]; [done|].
  change (concat (block <$> r :: records))
    with (block r ++ concat (block <$> records)).
  intros [Hr Hrest]%Forall_app. cbn [List.filter].
  destruct (f r); [|by apply IH].
  cbn [fmap list_fmap concat]. f_equal; [|by apply IH].
  clear -Hr. induction Hr as [|raw l Hraw Hl IHl]; [done|].
  cbn [fmap list_fmap]. by rewrite Hraw, IHl.
Qed.

(** C5 (as amended). For an annotation file made of well-formed records,
    the filter pass writes the block of a record (image line, count line
    and its raw box lines, whether or not they would parse as boxes)
    exactly when the image resolved against the image root exists, each
    line stripped of its leading and trailing blanks and ended by one
    newline; the block of a record whose image does not exist is left out
    whole and the image is counted as missing. The blocks are verbatim
    when no line of the file has blanks around it and each ends with a
    newline. *)
Theorem filter_keeps_present_records (records : list annotation_record)
    (fuel : nat) (fs : gmap string file_data) :
  Forall well_formed records ->
  (length records < fuel)%nat ->
  open_ok output_annotations_file = true ->
  let lines := concat (block <$> records) in
  let kept := List.filter present records in
  let absent := List.filter (fun r => negb (present r)) records in
  exists st,
    Filter.filter_annotations path_exists open_ok image_dir
      output_annotations_file lines fuel fs
    = Filter.Finished
        (<[output_annotations_file :=
             TextFile (String.concat "" (Filter.filtered_lines st))]> fs,
         st)
    /\ Filter.filtered_lines st
       = concat ((fun r => emitted <$> block r) <$> kept)
    /\ Filter.missing_images st
       = (fun r => Py.strip (image_line r)) <$> absent
    /\ Filter.processed_images st = length kept
    /\ (Forall (fun raw => emitted raw = raw) lines ->
        Filter.filtered_lines st = concat (block <$> kept)).
Proof.
  intros Hwf Hfuel Hok lines kept absent.
  pose proof (filter_loop_records records [] Filter.initial fuel
                Hwf eq_refl Hfuel) as Hloop.
  rewrite app_nil_l in Hloop. fold lines in Hloop.
  eexists (Filter.State _ _ _ _ _). split.
  { unfold Filter.filter_annotations. rewrite Hloop, Hok.
    unfold Filter.written. cbn [Filter.filtered_lines]. reflexivity. }
  cbn [Filter.filtered_lines Filter.missing_images Filter.processed_images
       Filter.initial app Nat.add].
  repeat split. intros Hclean. by apply emitted_clean.
Qed.

(** C10. When the image of a record exists and the line after the image
    line does not parse as an integer, the iteration appends the image
    line alone to the filtered lines, moves past the two lines, and
    counts the record neither as processed nor as missing. For a file of
    these two lines the pass therefore writes the image line alone, a
    text that is not in the input grammar, and reports 0 processed and 0
    missing images for a file of one record. *)
Theorem image_line_without_count (raw_img raw_count : string) :
  is_image_name (Py.strip raw_img) = true ->
  path_exists (OsPath.normpath (OsPath.join image_dir (Py.strip raw_img)))
  = true ->
  Py.int (Py.strip raw_count) = None ->
  let current_image := Py.strip raw_img in
  (forall lines st,
     Filter.getitem lines (Filter.index st) = Ok raw_img ->
     Filter.index st + 1 < Filter.total_lines lines ->
     Filter.getitem lines (Filter.index st + 1) = Ok raw_count ->
     filter_body lines st
     = Ok (Filter.Continue,
           Filter.State (Filter.index st + 1 + 1)
             (Filter.filtered_lines st ++ [current_image +:+ nl])
             (Filter.missing_images st) (Filter.processed_images st)
             (Filter.logs st
              ++ [(WARNING,
                   ExpectedNumberOfBoxes current_image
                     (Py.strip raw_count))])))
  /\ (open_ok output_annotations_file = true ->
      forall fuel fs,
      exists st,
        Filter.filter_annotations path_exists open_ok image_dir
          output_annotations_file [raw_img; raw_count] (S (S fuel)) fs
        = Filter.Finished
            (<[output_annotations_file := TextFile (current_image +:+ nl)]>
               fs, st)
        /\ Filter.filtered_lines st = [current_image +:+ nl]
        /\ Filter.processed_images st = 0%nat
        /\ Filter.missing_images st = []).
Proof.
  intros Hname Hexists Hint current_image.
  assert (Hbody : forall lines st,
     Filter.getitem lines (Filter.index st) = Ok raw_img ->
     Filter.index st + 1 < Filter.total_lines lines ->
     Filter.getitem lines (Filter.index st + 1) = Ok raw_count ->
     filter_body lines st
     = Ok (Filter.Continue,
           Filter.State (Filter.index st + 1 + 1)
             (Filter.filtered_lines st ++ [current_image +:+ nl])
             (Filter.missing_images st) (Filter.processed_images st)
             (Filter.logs st
              ++ [(WARNING,
                   ExpectedNumberOfBoxes current_image
                     (Py.strip raw_count))]))).
  { intros lines st Himg Hlt Hcount. unfold Filter.loop_body.
    rewrite Himg. cbn [bind]. rewrite Hname, Hexists.
    replace (Filter.total_lines lines <=? Filter.index st + 1) with false
      by (symmetry; apply Z.leb_gt; lia).
    rewrite Hcount. cbn [bind]. by rewrite Hint. }
  split; [exact Hbody|].
  intros Hok fuel fs.
  eexists (Filter.State _ _ _ _ _). split.
  { unfold Filter.filter_annotations. cbn [Filter.while_loop].
    change (Filter.index Filter.initial
            <? Filter.total_lines [raw_img; raw_count]) with true.
    rewrite (Hbody [raw_img; raw_count] Filter.initial
               eq_refl eq_refl eq_refl).
    cbn [Filter.index].
    change (Filter.index Filter.initial + 1 + 1
            <? Filter.total_lines [raw_img; raw_count]) with false.
    cbn iota. rewrite Hok.
    unfold Filter.written. cbn [Filter.filtered_lines]. reflexivity. }
  done.
Qed.

End FilterPass.

(** ** The filter pass on examples *)

Lemma filter_keeps_present_records_witness :
  let a := AnnotationRecord (parade +:+ nl) ("2" +:+ nl)
             ["449 330 122 149" +:+ nl; "not a box" +:+ nl] in
  let b := AnnotationRecord ("1--Handshaking/b.jpg" +:+ nl) ("1" +:+ nl)
             ["1 2 3 4" +:+ nl] in
  exists st,
    Filter.filter_annotations example_path_exists always_writable "images"
      "filtered.txt" (block a ++ block b) 3 ∅
    = Filter.Finished
        (<["filtered.txt" :=
             TextFile (String.concat "" (Filter.filtered_lines st))]> ∅, st)
    /\ Filter.filtered_lines st = block a
    /\ Filter.missing_images st = ["1--Handshaking/b.jpg"]
    /\ Filter.processed_images st = 1%nat.
Proof.
  intros a b.
  destruct (filter_keeps_present_records example_path_exists always_writable
              "images" "filtered.txt" [a; b] 3 ∅
              ltac:(repeat constructor) ltac:(simpl; lia) eq_refl)
    as (st & Hrun & Hlines & Hmissing & Hprocessed & _).
  exists st. split; [exact Hrun|]. split; [exact Hlines|].
  split; [exact Hmissing|exact Hprocessed].
Defined.

(** A box line of the input with a blank before the newline, as in the
    WIDER Face files, is not written back as it was: the block of an image
    that exists is not copied verbatim. *)
Lemma filter_output_not_verbatim :
  let a := [parade +:+ nl; "1" +:+ nl;
            "449 330 122 149 0 0 0 0 0 0 " +:+ nl] in
  let b := ["1--Handshaking/b.jpg" +:+ nl; "1" +:+ nl; "1 2 3 4" +:+ nl] in
  example_path_exists (OsPath.normpath (OsPath.join "images" parade)) = true
  /\ exists fs st,
       Filter.filter_annotations example_path_exists always_writable "images"
         "filtered.txt" (a ++ b) 7 ∅
       = Filter.Finished (fs, st)
       /\ Filter.filtered_lines st
          = [parade +:+ nl; "1" +:+ nl; "449 330 122 149 0 0 0 0 0 0" +:+ nl]
       /\ Filter.filtered_lines st ≠ a
       /\ fs !! "filtered.txt" ≠ Some (TextFile (String.concat "" a)).
Proof.
  intros a b. split; [reflexivity|].
  destruct (Filter.filter_annotations example_path_exists always_writable
              "images" "filtered.txt" (a ++ b) 7 ∅) as [[fs st]| |] eqn:Hrun;
    try (by vm_compute in Hrun).
  exists fs, st. split; [reflexivity|].
  vm_compute in Hrun. injection Hrun as <- <-.
  split; [reflexivity|]. split; [by vm_compute|].
  vm_compute. by intros [=].
Qed.

Lemma image_line_without_count_witness :
  exists st,
    Filter.filter_annotations example_path_exists always_writable "images"
      "filtered.txt" [parade +:+ nl; "one" +:+ nl] 2 ∅
    = Filter.Finished (<["filtered.txt" := TextFile (parade +:+ nl)]> ∅, st)
    /\ Filter.filtered_lines st = [parade +:+ nl]
    /\ Filter.processed_images st = 0%nat
    /\ Filter.missing_images st = [].
Proof.
  exact (proj2 (image_line_without_count example_path_exists always_writable
                  "images" "filtered.txt" (parade +:+ nl) ("one" +:+ nl)
                  eq_refl eq_refl eq_refl) eq_refl 0%nat ∅).
Defined.

(** ** Integers and their decimal text *)

Lemma digits_of_uint_acc (d : Decimal.uint) (acc : positive) :
  Py.digits (Z.pos acc) true (NilEmpty.string_of_uint d)
  = Some (Z.pos (Pos.of_uint_acc d acc)).
Proof.
  revert acc. induction d; intros acc; simpl; [done|..];
    rewrite <- IHd; f_equal;
    match goal with
    | |- context [Py.digit_value ?c] =>
        let v := eval vm_compute in (Py.digit_value c) in
        change (Py.digit_value c) with v
    end; lia.
Qed.

Lemma digits_of_uint (d : Decimal.uint) (prev : bool) :
  prev = true \/ d <> Decimal.Nil ->
  Py.digits 0 prev (NilEmpty.string_of_uint d) = Some (Z.of_N (Pos.of_uint d)).
Proof.
  revert prev. induction d; intros prev Hd; simpl;
    try (apply (digits_of_uint_acc d)).
  - destruct Hd as [->|Hd]; done.
  - apply IHd. by left.
Qed.

Lemma int_of_digits (d : Decimal.uint) :
  d <> Decimal.Nil ->
  Py.int (NilZero.string_of_uint d) = Some (Z.of_uint d)
  /\ Py.int (String "-" (NilZero.string_of_uint d)) = Some (- Z.of_uint d).
Proof.
  intros Hd. unfold Z.of_uint.
  assert (Hs : NilZero.string_of_uint d = NilEmpty.string_of_uint d)
    by (by destruct d).
  rewrite Hs. split.
  - rewrite <- (digits_of_uint d false) by (by right).
    destruct d; [done|..]; reflexivity.
  - change (Py.int (String "-" (NilEmpty.string_of_uint d)))
      with (Z.opp <$> Py.digits 0 false (NilEmpty.string_of_uint d)).
    by rewrite digits_of_uint by (by right).
Qed.

(** [int(str(n)) == n] *)
Lemma int_str (n : Z) : Py.int (Py.str n) = Some n.
Proof.
  unfold Py.str.
  rewrite <- (DecimalZ.of_to n) at 2.
  destruct n as [|p|p]; [reflexivity|..]; simpl Z.to_int;
    unfold NilZero.string_of_int, Z.of_int;
    apply int_of_digits, Unsigned.to_uint_nonnil.
Qed.

(** ** The VOC document of a list of boxes *)

Lemma object_of_box_None (bbox : list Z) :
  object_of_box bbox = None <-> (length bbox =? 4)%nat = false.
Proof.
  destruct bbox as [|b0 [|b1 [|b2 [|b3 [|b4 rest]]]]]; simpl; split; done.
Qed.

(** The loop over the boxes: one [object] element for each box of four
    items, in order, and one warning for each other box, in order. *)
Lemma voc_objects_spec (boxes : list (list Z)) (lg : log) :
  voc_objects boxes lg
  = (omap object_of_box boxes,
     lg ++ ((fun bbox => (WARNING, InvalidBoundingBox bbox))
              <$> List.filter (fun bbox => negb (length bbox =? 4)%nat) boxes)).
Proof.
  revert lg. induction boxes as [|bbox boxes IH]; intros lg.
  - simpl. by rewrite app_nil_r.
  - destruct bbox as [|b0 [|b1 [|b2 [|b3 [|b4 rest]]]]];
      try (cbn [voc_objects]; rewrite IH; cbn; rewrite <- app_assoc; done).
    cbn [voc_objects]. rewrite IH. reflexivity.
Qed.

Lemma findall_objects (fixed objs : list element) :
  Forall (fun e => tag_of e ≠ "object") fixed ->
  Forall (fun e => tag_of e = "object") objs ->
  findall "object" (Element "annotation" None (fixed ++ objs)) = objs.
Proof.
  intros Hfixed Hobjs. unfold findall. cbn [children_of].
  rewrite List.filter_app.
  replace (List.filter _ fixed) with (@nil element).
  - simpl. induction Hobjs as [|e objs He _ IH]; [done|].
    cbn [List.filter]. rewrite He. simpl. by rewrite IH.
  - symmetry. induction Hfixed as [|e fixed He _ IH]; [done|].
    cbn [List.filter].
    destruct (String.eqb_spec (tag_of e) "object"); [done|exact IH].
Qed.

Lemma omap_object_tags (boxes : list (list Z)) :
  Forall (fun e => tag_of e = "object") (omap object_of_box boxes).
Proof.
  induction boxes as [|bbox boxes IH]; [constructor|].
  destruct bbox as [|b0 [|b1 [|b2 [|b3 [|b4 rest]]]]]; try exact IH.
  by constructor.
Qed.

Lemma length_omap_objects (boxes : list (list Z)) :
  length (omap object_of_box boxes)
  = length (List.filter (fun bbox => (length bbox =? 4)%nat) boxes).
Proof.
  induction boxes as [|bbox boxes IH]; [done|].
  destruct bbox as [|b0 [|b1 [|b2 [|b3 [|b4 rest]]]]]; try exact IH.
  cbn. by rewrite <- IH.
Qed.

Lemma voc_annotation_objects (filename output_dir : string)
    (width height : Z) (boxes : list (list Z)) (lg : log) :
  findall "object"
    (voc_annotation filename width height boxes output_dir lg).1
  = omap object_of_box boxes.
Proof.
  unfold voc_annotation. rewrite voc_objects_spec. cbn [fst].
  apply findall_objects; [|apply omap_object_tags].
  unfold voc_fixed_fields, leaf. repeat constructor; by cbn.
Qed.

(** X1. The VOC document of any list of boxes has one [object] element for
    each box of exactly four items, in the order of the boxes, and none for
    the others; for each box that has not four items one warning is logged
    and the document is built all the same. *)
Theorem voc_document_objects (filename output_dir : string) (width height : Z)
    (boxes : list (list Z)) (lg : log) :
  let result := voc_annotation filename width height boxes output_dir lg in
  findall "object" result.1 = omap object_of_box boxes
  /\ length (findall "object" result.1)
     = length (List.filter (fun bbox => (length bbox =? 4)%nat) boxes)
  /\ result.2
     = lg ++ ((fun bbox => (WARNING, InvalidBoundingBox bbox))
                <$> List.filter (fun bbox => negb (length bbox =? 4)%nat)
                      boxes).
Proof.
  intros result. unfold result.
  rewrite voc_annotation_objects.
  split; [reflexivity|]. split; [apply length_omap_objects|].
  unfold voc_annotation. by rewrite voc_objects_spec.
Qed.

Lemma box_of_voc_object (b0 b1 b2 b3 : Z) :
  box_of_object (voc_object b0 b1 b2 b3) = Some [b0; b1; b2; b3].
Proof.
  unfold box_of_object, voc_object, leaf. cbn [findall children_of tag_of
    List.filter String.eqb Ascii.eqb Bool.eqb].
  unfold int_child. cbn [findall children_of tag_of
    List.filter String.eqb Ascii.eqb Bool.eqb].
  rewrite !int_str. cbn [mbind option_bind].
  replace (b0 + b2 - b0) with b2 by lia.
  by replace (b1 + b3 - b1) with b3 by lia.
Qed.

Lemma mapM_box_of_object (boxes : list (list Z)) :
  mapM box_of_object (omap object_of_box boxes)
  = Some (List.filter (fun bbox => (length bbox =? 4)%nat) boxes).
Proof.
  induction boxes as [|bbox boxes IH]; [done|].
  destruct bbox as [|b0 [|b1 [|b2 [|b3 [|b4 rest]]]]]; try exact IH.
  change (omap object_of_box ([b0; b1; b2; b3] :: boxes))
    with (voc_object b0 b1 b2 b3 :: omap object_of_box boxes).
  cbn [mapM]. rewrite box_of_voc_object. cbn [mbind option_bind].
  rewrite IH. reflexivity.
Qed.

(** X2. Round trip through the VOC document: reading the [bndbox] corners
    of the [object] elements back with [int] and taking width = xmax - xmin
    and height = ymax - ymin gives the boxes of four items the document was
    built from, in order. *)
Theorem voc_round_trip (filename output_dir : string) (width height : Z)
    (boxes : list (list Z)) (lg : log) :
  mapM box_of_object
    (findall "object"
       (voc_annotation filename width height boxes output_dir lg).1)
  = Some (List.filter (fun bbox => (length bbox =? 4)%nat) boxes).
Proof.
  rewrite voc_annotation_objects. apply mapM_box_of_object.
Qed.

(** ** The two files of a record *)

Lemma concat_cons (x : string) (l : list string) :
  String.concat "" (x :: l) = x +:+ String.concat "" l.
Proof.
  destruct l as [|y l]; [by rewrite append_empty_r|]. reflexivity.
Qed.

Section RecordOutputs.

Variable float_repr : Qc -> string.
Variable image_open : string -> option (Z * Z).
Variable open_ok : string -> bool.
Variables output_yolo_dir output_voc_dir image_dir : string.

Abbreviation record_outputs :=
  (Convert.process_record float_repr image_open open_ok
     output_yolo_dir output_voc_dir image_dir).


(** A side that is zero makes the conversion of a box of four items raise
    [ZeroDivisionError]. *)
Lemma convert_to_yolo_zero (bbox : list Z) (W H : Z) :
  W = 0 \/ H = 0 -> length bbox = 4%nat ->
  convert_to_yolo float_repr bbox W H = Raise ZeroDivisionError.
Proof.
  intros Hzero Hlen.
  destruct bbox as [|b0 [|b1 [|b2 [|b3 [|b4 rest]]]]]; try done.
  unfold convert_to_yolo, yolo_fields.
  rewrite (true_div_ok _ 2) by done. cbn [bind].
  destruct (decide (W = 0)) as [->|HW].
  - reflexivity.
  - destruct Hzero as [HW0 | ->]; [done|].
    rewrite (true_div_ok _ W) by done. cbn [bind].
    rewrite (true_div_ok _ 2) by done. cbn [bind]. reflexivity.
Qed.


Lemma save_voc_yolo_count (img p d : string) (boxes : list (list Z))
    (W H : Z) (st : Convert.state) :
  Convert.yolo_file_count (Convert.save_voc open_ok img p d boxes W H st)
  = Convert.yolo_file_count st.
Proof.
  unfold Convert.save_voc.
  by destruct (Convert.create_voc_xml _ _ _ _ _ _ _ _) as [[[?|] ?] ?].
Qed.

(** What [save_voc] leaves at a path, and in the counter. *)
Lemma save_voc_lookup (img p d : string) (boxes : list (list Z)) (W H : Z)
    (st : Convert.state) (path : string) :
  Convert.files (Convert.save_voc open_ok img p d boxes W H st) !! path
  = if open_ok (xml_output_path p d) && bool_decide (path = xml_output_path p d)
    then Some (XmlFile
                 (Element "annotation" None
                    (voc_fixed_fields p W H d ++ omap object_of_box boxes)))
    else Convert.files st !! path.
Proof.
  unfold Convert.save_voc, Convert.create_voc_xml, voc_annotation.
  rewrite voc_objects_spec.
  destruct (open_ok (xml_output_path p d)); cbn [Convert.files andb]; [|done].
  case_bool_decide as Hpath.
  - subst path. by rewrite lookup_insert_eq.
  - by rewrite lookup_insert_ne.
Qed.

Lemma save_voc_count (img p d : string) (boxes : list (list Z)) (W H : Z)
    (st : Convert.state) :
  Convert.voc_file_count (Convert.save_voc open_ok img p d boxes W H st)
  = (Convert.voc_file_count st
     + if open_ok (xml_output_path p d) then 1 else 0)%nat.
Proof.
  unfold Convert.save_voc, Convert.create_voc_xml.
  destruct (voc_annotation _ _ _ _ _ _) as [annotation lg].
  destruct (open_ok (xml_output_path p d)); cbn [Convert.voc_file_count]; lia.
Qed.

Lemma save_voc_logs (img p d : string) (boxes : list (list Z)) (W H : Z)
    (st : Convert.state) :
  exists more,
    Convert.logs (Convert.save_voc open_ok img p d boxes W H st)
    = Convert.logs st ++ more.
Proof.
  unfold Convert.save_voc, Convert.create_voc_xml, voc_annotation.
  rewrite voc_objects_spec.
  destruct (open_ok (xml_output_path p d)); cbn [Convert.logs];
    eexists; rewrite <- app_assoc; reflexivity.
Qed.

Lemma save_yolo_lookup_other (p d : string) (boxes : list (list Z)) (W H : Z)
    (st : Convert.state) (path : string) :
  path ≠ yolo_output_path p d ->
  Convert.files (Convert.save_yolo float_repr open_ok p d boxes W H st) !! path
  = Convert.files st !! path.
Proof.
  intros Hpath. unfold Convert.save_yolo.
  destruct (open_ok _); [|done].
  destruct (Convert.write_boxes _ _ _ _ _) as [content [e|]];
    cbn [Convert.files]; by rewrite lookup_insert_ne.
Qed.

(** The YOLO file, and its counter, after a whole record. *)
Lemma record_yolo_outcome (current_image : string) (boxes : list (list Z))
    (W H : Z) (st : Convert.state) :
  image_open (image_path_of image_dir current_image) = Some (W, H) ->
  let p := OsPath.normpath current_image in
  let mid :=
    Convert.save_yolo float_repr open_ok p output_yolo_dir boxes W H
      (Convert.State (Convert.index st) (Convert.yolo_file_count st)
         (Convert.voc_file_count st) (Convert.files st)
         (Convert.logs st
          ++ [(INFO, TryingToOpen (image_path_of image_dir current_image))]))
  in
  Convert.yolo_file_count (record_outputs current_image boxes st)
  = Convert.yolo_file_count mid
  /\ Convert.files (record_outputs current_image boxes st)
       !! yolo_output_path p output_yolo_dir
     = Convert.files mid !! yolo_output_path p output_yolo_dir
  /\ exists more,
       Convert.logs (record_outputs current_image boxes st)
       = Convert.logs mid ++ more.
Proof.
  intros Hopen p mid.
  rewrite (process_record_readable _ _ _ _ _ _ _ _ W H) by done.
  fold p. fold mid.
  split; [apply save_voc_yolo_count|]. split; [|apply save_voc_logs].
  rewrite save_voc_lookup.
  rewrite bool_decide_false by apply yolo_path_not_xml_path.
  by rewrite andb_false_r.
Qed.

(** The VOC file, and its counter, after a whole record. *)
Lemma record_voc_outcome (current_image : string) (boxes : list (list Z))
    (W H : Z) (st : Convert.state) :
  image_open (image_path_of image_dir current_image) = Some (W, H) ->
  let p := OsPath.normpath current_image in
  Convert.voc_file_count (record_outputs current_image boxes st)
  = (Convert.voc_file_count st
     + if open_ok (xml_output_path p output_voc_dir) then 1 else 0)%nat
  /\ Convert.files (record_outputs current_image boxes st)
       !! xml_output_path p output_voc_dir
     = if open_ok (xml_output_path p output_voc_dir)
       then Some (XmlFile
                    (Element "annotation" None
                       (voc_fixed_fields p W H output_voc_dir
                        ++ omap object_of_box boxes)))
       else Convert.files st !! xml_output_path p output_voc_dir.
Proof.
  intros Hopen p.
  rewrite (process_record_readable _ _ _ _ _ _ _ _ W H) by done.
  fold p. split.
  - by rewrite save_voc_count, save_yolo_voc_count.
  - rewrite save_voc_lookup, bool_decide_true by done.
    rewrite andb_true_r.
    destruct (open_ok (xml_output_path p output_voc_dir)); [done|].
    rewrite save_yolo_lookup_other
      by apply not_eq_sym, yolo_path_not_xml_path.
    reflexivity.
Qed.


(** X4. When the image decoder reports a width or a height of zero and
    the record has a first box of four items, [convert_to_yolo] raises
    [ZeroDivisionError] inside the open YOLO file: the file is left empty,
    the YOLO counter does not move and the error is logged; the VOC file is
    written and counted all the same when it can be. *)
Theorem zero_size_image (current_image : string) (bbox : list Z)
    (rest : list (list Z)) (W H : Z) (st : Convert.state) :
  image_open (image_path_of image_dir current_image) = Some (W, H) ->
  W = 0 \/ H = 0 ->
  length bbox = 4%nat ->
  let p := OsPath.normpath current_image in
  let path := yolo_output_path p output_yolo_dir in
  let xml_path := xml_output_path p output_voc_dir in
  open_ok path = true ->
  let st' := record_outputs current_image (bbox :: rest) st in
  Convert.files st' !! path = Some (TextFile "")
  /\ Convert.yolo_file_count st' = Convert.yolo_file_count st
  /\ (ERROR, ErrorSavingYolo path) ∈ Convert.logs st'
  /\ (open_ok xml_path = true ->
      Convert.voc_file_count st' = S (Convert.voc_file_count st)
      /\ is_Some (Convert.files st' !! xml_path)).
Proof.
  intros Hopen Hzero Hlen p path xml_path Hok st'.
  destruct (record_yolo_outcome current_image (bbox :: rest) W H st Hopen)
    as (Hcount & Hfile & more & Hlogs).
  destruct (record_voc_outcome current_image (bbox :: rest) W H st Hopen)
    as (Hvoc & Hxml).
  fold p in Hcount, Hfile, Hlogs, Hvoc, Hxml.
  fold path in Hfile. fold xml_path in Hvoc, Hxml.
  unfold st'. rewrite Hcount, Hfile, Hlogs.
  unfold Convert.save_yolo. fold path. rewrite Hok.
  cbn [Convert.write_boxes]. rewrite convert_to_yolo_zero by done.
  cbn [Convert.files Convert.yolo_file_count Convert.logs].
  split; [by rewrite lookup_insert_eq|]. split; [done|]. split.
  - apply list_elem_of_In, in_or_app. left.
    apply in_or_app. right. by left.
  - intros Hxml_ok. rewrite Hvoc, Hxml, Hxml_ok. split; [lia|eauto].
Qed.

End RecordOutputs.

(** X5. The two files of a record do not depend on each other: the YOLO
    file and its counter after the record are the same whether or not the
    VOC file can be written, and the VOC file and its counter are the same
    whether or not the YOLO file can be written. *)
Theorem outputs_independent (float_repr : Qc -> string)
    (image_open : string -> option (Z * Z)) (open_ok open_ok' : string -> bool)
    (output_yolo_dir output_voc_dir image_dir : string)
    (current_image : string) (boxes : list (list Z)) (W H : Z)
    (st : Convert.state) :
  image_open (image_path_of image_dir current_image) = Some (W, H) ->
  let p := OsPath.normpath current_image in
  let path := yolo_output_path p output_yolo_dir in
  let xml_path := xml_output_path p output_voc_dir in
  let st1 :=
    Convert.process_record float_repr image_open open_ok
      output_yolo_dir output_voc_dir image_dir current_image boxes st in
  let st2 :=
    Convert.process_record float_repr image_open open_ok'
      output_yolo_dir output_voc_dir image_dir current_image boxes st in
  (open_ok' path = open_ok path ->
     Convert.files st2 !! path = Convert.files st1 !! path
     /\ Convert.yolo_file_count st2 = Convert.yolo_file_count st1)
  /\ (open_ok' xml_path = open_ok xml_path ->
      Convert.files st2 !! xml_path = Convert.files st1 !! xml_path
      /\ Convert.voc_file_count st2 = Convert.voc_file_count st1).
Proof.
  intros Hopen p path xml_path st1 st2. split.
  - intros Hsame.
    destruct (record_yolo_outcome float_repr image_open open_ok
                output_yolo_dir output_voc_dir image_dir
                current_image boxes W H st Hopen) as (Hcount1 & Hfile1 & _).
    destruct (record_yolo_outcome float_repr image_open open_ok'
                output_yolo_dir output_voc_dir image_dir
                current_image boxes W H st Hopen) as (Hcount2 & Hfile2 & _).
    unfold st1, st2, path, p. rewrite Hcount1, Hcount2, Hfile1, Hfile2.
    unfold Convert.save_yolo. fold p. fold path. by rewrite Hsame.
  - intros Hsame.
    destruct (record_voc_outcome float_repr image_open open_ok
                output_yolo_dir output_voc_dir image_dir
                current_image boxes W H st Hopen) as (Hcount1 & Hfile1).
    destruct (record_voc_outcome float_repr image_open open_ok'
                output_yolo_dir output_voc_dir image_dir
                current_image boxes W H st Hopen) as (Hcount2 & Hfile2).
    unfold st1, st2, xml_path, p. rewrite Hcount1, Hcount2, Hfile1, Hfile2.
    fold p. fold xml_path. by rewrite Hsame.
Qed.


Lemma zero_size_image_witness :
  let st' :=
    Convert.process_record fraction_repr zero_width_image_open
      always_writable "output/yolo" "output/voc" "images" parade
      [[449; 330; 122; 149]] (Convert.State 3 0 0 ∅ []) in
  Convert.files st' !! "output/yolo/0--Parade/0_Parade_marchingband_1_849.txt"
  = Some (TextFile "")
  /\ Convert.yolo_file_count st' = 0%nat
  /\ Convert.voc_file_count st' = 1%nat.
Proof.
  intros st'.
  destruct (zero_size_image fraction_repr zero_width_image_open
              always_writable "output/yolo" "output/voc" "images" parade
              [449; 330; 122; 149] [] 0 683 (Convert.State 3 0 0 ∅ [])
              eq_refl ltac:(by left) eq_refl eq_refl)
    as (Hfile & Hcount & _ & Hvoc).
  split; [exact Hfile|]. split; [exact Hcount|].
  exact (proj1 (Hvoc eq_refl)).
Defined.

Lemma outputs_independent_witness :
  let run := fun open_ok =>
    Convert.process_record fraction_repr example_image_open open_ok
      "output/yolo" "output/voc" "images" parade [[449; 330; 122; 149]]
      (Convert.State 3 0 0 ∅ []) in
  Convert.files (run xml_not_writable)
    !! "output/yolo/0--Parade/0_Parade_marchingband_1_849.txt"
  = Convert.files (run always_writable)
      !! "output/yolo/0--Parade/0_Parade_marchingband_1_849.txt"
  /\ Convert.yolo_file_count (run xml_not_writable)
     = Convert.yolo_file_count (run always_writable).
Proof.
  intros run.
  exact (proj1 (outputs_independent fraction_repr example_image_open
                  always_writable xml_not_writable
                  "output/yolo" "output/voc" "images" parade
                  [[449; 330; 122; 149]] 1024 683
                  (Convert.State 3 0 0 ∅ []) eq_refl) eq_refl).
Defined.

(** ** The conversion pass over a whole file *)



Section WholePass.

Variable float_repr : Qc -> string.
Variable image_open : string -> option (Z * Z).
Variable open_ok : string -> bool.
Variables output_yolo_dir output_voc_dir image_dir : string.

Abbreviation pass_body :=
  (Convert.loop_body float_repr image_open open_ok
     output_yolo_dir output_voc_dir image_dir).
Abbreviation pass_loop :=
  (Convert.while_loop float_repr image_open open_ok
     output_yolo_dir output_voc_dir image_dir).
Abbreviation pass :=
  (Convert.process_annotations float_repr image_open open_ok
     output_yolo_dir output_voc_dir image_dir).

(** The loop over lines none of which is an image line. *)
Lemma pass_loop_no_image (rest pre : list string) (st : Convert.state)
    (fuel : nat) :
  Forall (fun raw => is_image_name (Py.strip raw) = false) rest ->
  Convert.index st = length pre ->
  (length rest < fuel)%nat ->
  pass_loop (pre ++ rest) fuel st
  = Some (Convert.State (length (pre ++ rest)) (Convert.yolo_file_count st)
            (Convert.voc_file_count st) (Convert.files st)
            (Convert.logs st
             ++ ((fun raw => (WARNING, UnexpectedLine (Py.strip raw)))
                   <$> rest))).
Proof.
  intros Hrest. revert pre st fuel.
  induction Hrest as [|raw rest Hraw _ IH]; intros pre st fuel Hindex Hfuel.
  - destruct fuel as [|fuel]; [simpl in Hfuel; lia|].
    rewrite app_nil_r.
    rewrite (while_loop_at_end _ _ _ _ _ _ pre fuel st) by lia.
    destruct st as [i y v f l]. simpl in Hindex. subst i.
    simpl. by rewrite app_nil_r.
  - destruct fuel as [|fuel]; [simpl in Hfuel; lia|]. simpl in Hfuel.
    assert (Hlookup : (pre ++ raw :: rest) !! Convert.index st = Some raw)
      by (rewrite Hindex; by apply list_lookup_middle).
    rewrite (while_loop_step _ _ _ _ _ _ _ _ _
               (Convert.State (S (Convert.index st))
                  (Convert.yolo_file_count st) (Convert.voc_file_count st)
                  (Convert.files st)
                  (Convert.logs st
                   ++ [(WARNING, UnexpectedLine (Py.strip raw))]))).
    + replace (pre ++ raw :: rest) with ((pre ++ [raw]) ++ rest)
        by (by rewrite <- app_assoc).
      rewrite IH; [|simpl; rewrite length_app; simpl; lia|lia].
      cbn [Convert.yolo_file_count Convert.voc_file_count Convert.files
           Convert.logs fmap list_fmap].
      by rewrite <- !app_assoc.
    + by apply lookup_lt_Some in Hlookup.
    + unfold Convert.loop_body, Convert.scan. by rewrite Hlookup, Hraw.
Qed.

(** X6. A file without any image line, the empty file in particular,
    leaves the conversion pass with no file written and both counters at
    zero; each line is passed over with one warning, in order, and nothing
    else is reported as a warning or an error. *)
Theorem no_image_lines (lines : list string) (fs : gmap string file_data) :
  Forall (fun raw => is_image_name (Py.strip raw) = false) lines ->
  exists st,
    pass lines fs = Some st
    /\ Convert.files st = fs
    /\ Convert.yolo_file_count st = 0%nat
    /\ Convert.voc_file_count st = 0%nat
    /\ List.filter is_problem (Convert.logs st)
       = (fun raw => (WARNING, UnexpectedLine (Py.strip raw))) <$> lines.
Proof.
  intros Hlines.
  pose proof (pass_loop_no_image lines [] (Convert.initial lines fs)
                (S (length lines)) Hlines eq_refl ltac:(lia)) as Hloop.
  rewrite app_nil_l in Hloop.
  eexists. split.
  { unfold Convert.process_annotations. rewrite Hloop. reflexivity. }
  cbn [Convert.summary Convert.files Convert.yolo_file_count
       Convert.voc_file_count Convert.logs Convert.initial fmap option_fmap
       option_map].
  repeat split.
  rewrite !List.filter_app. cbn [List.filter is_problem fst].
  rewrite app_nil_r. cbn [app].
  clear Hlines Hloop. induction lines as [|raw lines IH]; [reflexivity|].
  cbn [fmap list_fmap List.filter is_problem fst]. f_equal. exact IH.
Qed.

Hypothesis all_writable : forall path, open_ok path = true.
Hypothesis sizes_not_zero :
  forall path W H, image_open path = Some (W, H) -> W ≠ 0 /\ H ≠ 0.





End WholePass.


Lemma no_image_lines_witness :
  exists st,
    example_pass ["# comment"; ""; "449 330 122 149"] = Some st
    /\ Convert.files st = ∅
    /\ List.filter is_problem (Convert.logs st)
       = [(WARNING, UnexpectedLine "# comment");
          (WARNING, UnexpectedLine "");
          (WARNING, UnexpectedLine "449 330 122 149")].
Proof.
  destruct (no_image_lines fraction_repr example_image_open always_writable
              "output/yolo" "output/voc" "images"
              ["# comment"; ""; "449 330 122 149"] ∅
              ltac:(repeat constructor))
    as (st & Hrun & Hfiles & _ & _ & Hlogs).
  exists st. split; [exact Hrun|]. split; [exact Hfiles|exact Hlogs].
Defined.


(** ** What the filter pass keeps true on every input *)

Lemma getitem_elem_of (lines : list string) (index : Z) (raw : string) :
  Filter.getitem lines index = Ok raw -> raw ∈ lines.
Proof.
  unfold Filter.getitem.
  destruct (_ <? 0); [done|].
  destruct (lines !! _) as [line|] eqn:Hline; [|done].
  intros [= <-]. by apply list_elem_of_lookup_2 in Hline.
Qed.

Section FilterInvariant.

Variable path_exists : string -> bool.
Variable image_dir : string.
Variable lines : list string.

Abbreviation from_input := (from_input lines).
Abbreviation really_missing := (really_missing path_exists image_dir lines).
Abbreviation filter_invariant :=
  (filter_invariant path_exists image_dir lines).

Lemma copy_boxes_from_input (current_image : string) (num_boxes : Z)
    (n : nat) (index index' : Z) (filtered filtered' : list string)
    (lg lg' : log) :
  Forall from_input filtered ->
  Filter.copy_boxes lines current_image num_boxes n index filtered lg
  = Ok (index', filtered', lg') ->
  Forall from_input filtered'.
Proof.
  revert index filtered. induction n as [|n IH]; intros index filtered Hinv.
  - simpl. by intros [= <- <- <-].
  - cbn [Filter.copy_boxes].
    destruct (_ <=? _); [by intros [= <- <- <-]|].
    destruct (Filter.getitem lines index) as [raw|e] eqn:Hraw; [|done].
    cbn [bind]. apply IH. apply Forall_app. split; [exact Hinv|].
    constructor; [|constructor]. exists raw.
    split; [by apply (getitem_elem_of lines index)|reflexivity].
Qed.

Lemma filter_body_invariant (st st' : Filter.state) (c : Filter.control) :
  filter_invariant st ->
  Filter.loop_body path_exists image_dir lines st = Ok (c, st') ->
  filter_invariant st'.
Proof.
  intros [Hlines Hmissing]. unfold Filter.loop_body.
  destruct (Filter.getitem lines (Filter.index st)) as [raw|e] eqn:Hraw;
    [|done].
  cbn [bind]. pose proof (getitem_elem_of _ _ _ Hraw) as Hin.
  assert (Himg : from_input (Py.strip raw +:+ nl)) by (by exists raw).
  destruct (is_image_name (Py.strip raw)) eqn:Hname.
  - destruct (path_exists _) eqn:Hexists.
    + destruct (_ <=? _).
      { intros [= <- <-]. split; [|done]. cbn [Filter.filtered_lines].
        apply Forall_app. split; [done|]. by repeat constructor. }
      destruct (Filter.getitem lines (Filter.index st + 1))
        as [raw_count|e] eqn:Hcount; [|done].
      cbn [bind]. pose proof (getitem_elem_of _ _ _ Hcount) as Hin_count.
      destruct (Py.int (Py.strip raw_count)) as [num_boxes|].
      * destruct (Filter.copy_boxes _ _ _ _ _ _ _)
          as [[[index' filtered'] lg']|e] eqn:Hcopy; [|done].
        cbn [bind]. intros [= <- <-]. split; [|done].
        cbn [Filter.filtered_lines].
        eapply copy_boxes_from_input; [|exact Hcopy].
        apply Forall_app. split; [|by repeat constructor; exists raw_count].
        apply Forall_app. split; [done|]. by repeat constructor.
      * intros [= <- <-]. split; [|done]. cbn [Filter.filtered_lines].
        apply Forall_app. split; [done|]. by repeat constructor.
    + assert (Hnew : Forall really_missing
                       (Filter.missing_images st ++ [Py.strip raw])).
      { apply Forall_app. split; [done|].
        constructor; [|constructor]. by exists raw. }
      destruct (_ <=? _); [by intros [= <- <-]|].
      destruct (Filter.getitem lines (Filter.index st + 1))
        as [raw_count|e]; [|done].
      cbn [bind].
      destruct (Py.int (Py.strip raw_count)); by intros [= <- <-].
  - by intros [= <- <-].
Qed.

Lemma filter_loop_invariant (fuel : nat) (st st' : Filter.state) :
  filter_invariant st ->
  Filter.while_loop path_exists image_dir lines fuel st = Filter.Finished st' ->
  filter_invariant st'.
Proof.
  revert st. induction fuel as [|fuel IH]; intros st Hinv; [done|].
  cbn [Filter.while_loop]. destruct (_ <? _); [|by intros [= <-]].
  destruct (Filter.loop_body path_exists image_dir lines st)
    as [[[|] st1]|e] eqn:Hbody; [| |done].
  - apply IH. by apply (filter_body_invariant st st1 Filter.Continue).
  - intros [= <-]. by apply (filter_body_invariant st st1 Filter.Break).
Qed.

End FilterInvariant.

(** X8. Whatever the input, well-formed or not, when the filter pass
    returns, every line it has written is a line of the input, stripped and
    ended by a newline, every image it lists as missing is an image line of
    the input whose image does not exist, and the output file holds the
    filtered lines and nothing else. *)
Theorem filter_output_from_input (path_exists open_ok : string -> bool)
    (image_dir output_annotations_file : string) (lines : list string)
    (fuel : nat) (fs fs' : gmap string file_data) (st : Filter.state) :
  Filter.filter_annotations path_exists open_ok image_dir
    output_annotations_file lines fuel fs = Filter.Finished (fs', st) ->
  Forall (from_input lines) (Filter.filtered_lines st)
  /\ Forall (really_missing path_exists image_dir lines)
       (Filter.missing_images st)
  /\ fs' !! output_annotations_file
     = Some (TextFile (String.concat "" (Filter.filtered_lines st))).
Proof.
  unfold Filter.filter_annotations.
  destruct (Filter.while_loop path_exists image_dir lines fuel Filter.initial)
    as [st0| |] eqn:Hloop; [|done..].
  destruct (open_ok output_annotations_file); [|done].
  intros [= <- <-].
  destruct (filter_loop_invariant path_exists image_dir lines fuel
              Filter.initial st0) as [Hlines Hmissing];
    [by split; constructor|exact Hloop|].
  cbn [Filter.filtered_lines Filter.missing_images].
  split; [exact Hlines|]. split; [exact Hmissing|].
  by rewrite lookup_insert_eq.
Qed.

Lemma filter_output_from_input_witness :
  let lines := ["junk" +:+ nl; parade +:+ nl; "x" +:+ nl; "b.jpg" +:+ nl;
                "0" +:+ nl; parade +:+ nl; "1" +:+ nl; "b.jpg "] in
  exists fs' st,
    Filter.filter_annotations example_path_exists always_writable "images"
      "filtered.txt" lines 9 ∅ = Filter.Finished (fs', st)
    /\ Forall (from_input lines) (Filter.filtered_lines st)
    /\ Forall (really_missing example_path_exists "images" lines)
         (Filter.missing_images st).
Proof.
  intros lines.
  destruct (Filter.filter_annotations example_path_exists always_writable
              "images" "filtered.txt" lines 9 ∅) as [[fs' st]| |] eqn:Hrun;
    [|by vm_compute in Hrun..].
  exists fs', st. split; [reflexivity|].
  destruct (filter_output_from_input example_path_exists always_writable
              "images" "filtered.txt" lines 9 ∅ fs' st Hrun)
    as (Hlines & Hmissing & _).
  split; [exact Hlines|exact Hmissing].
Defined.

(** ** A negative count after a missing image *)

Section NegativeCount.

Variable path_exists : string -> bool.
Variable image_dir : string.
Variable lines : list string.

Abbreviation negative_loop := (Filter.while_loop path_exists image_dir lines).

(** The iteration at the image line of a missing image whose count line
    parses: the index moves by the count plus two, whatever its sign. *)
Lemma filter_body_missing (st : Filter.state) (raw_img raw_count : string)
    (n : Z) :
  Filter.getitem lines (Filter.index st) = Ok raw_img ->
  is_image_name (Py.strip raw_img) = true ->
  path_exists (OsPath.normpath (OsPath.join image_dir (Py.strip raw_img)))
  = false ->
  Filter.index st + 1 < Filter.total_lines lines ->
  Filter.getitem lines (Filter.index st + 1) = Ok raw_count ->
  Py.int (Py.strip raw_count) = Some n ->
  Filter.loop_body path_exists image_dir lines st
  = Ok (Filter.Continue,
        Filter.State (Filter.index st + 1 + (1 + n))
          (Filter.filtered_lines st)
          (Filter.missing_images st ++ [Py.strip raw_img])
          (Filter.processed_images st) (Filter.logs st)).
Proof.
  intros Himg Hname Hexists Hlt Hcount Hint. unfold Filter.loop_body.
  rewrite Himg. cbn [bind]. rewrite Hname, Hexists.
  replace (Filter.total_lines lines <=? Filter.index st + 1) with false
    by (symmetry; apply Z.leb_gt; lia).
  rewrite Hcount. cbn [bind]. by rewrite Hint.
Qed.

(** X9. In the filter pass, a missing image whose count line reads -2
    sends the index back to the image line itself: the loop comes back to
    the same line for ever, adding the image to the list of missing images
    each time: every iteration from that line ends at that line, and no
    amount of fuel lets the loop return. *)
Theorem negative_count_hangs (st : Filter.state) (raw_img raw_count : string) :
  Filter.getitem lines (Filter.index st) = Ok raw_img ->
  is_image_name (Py.strip raw_img) = true ->
  path_exists (OsPath.normpath (OsPath.join image_dir (Py.strip raw_img)))
  = false ->
  Filter.index st + 1 < Filter.total_lines lines ->
  Filter.getitem lines (Filter.index st + 1) = Ok raw_count ->
  Py.int (Py.strip raw_count) = Some (-2) ->
  (forall s,
     Filter.index s = Filter.index st ->
     Filter.loop_body path_exists image_dir lines s
     = Ok (Filter.Continue,
           Filter.State (Filter.index st) (Filter.filtered_lines s)
             (Filter.missing_images s ++ [Py.strip raw_img])
             (Filter.processed_images s) (Filter.logs s)))
  /\ (forall fuel, negative_loop fuel st = Filter.OutOfFuel).
Proof.
  intros Himg Hname Hexists Hlt Hcount Hint.
  assert (Hstep : forall s,
            Filter.index s = Filter.index st ->
            Filter.loop_body path_exists image_dir lines s
            = Ok (Filter.Continue,
                  Filter.State (Filter.index st) (Filter.filtered_lines s)
                    (Filter.missing_images s ++ [Py.strip raw_img])
                    (Filter.processed_images s) (Filter.logs s))).
  { intros s Hs.
    rewrite (filter_body_missing s raw_img raw_count (-2));
      rewrite ?Hs; try done.
    do 3 f_equal. lia. }
  split; [exact Hstep|].
  intros fuel.
  assert (Hgen : forall s, Filter.index s = Filter.index st ->
                   negative_loop fuel s = Filter.OutOfFuel).
  { induction fuel as [|fuel IH]; intros s Hs; [done|].
    cbn [Filter.while_loop]. rewrite Hs.
    replace (Filter.index st <? Filter.total_lines lines) with true
      by (symmetry; apply Z.ltb_lt; lia).
    rewrite Hstep by done. by apply IH. }
  by apply Hgen.
Qed.

(** X10. In the filter pass, a missing image whose count is so negative
    that the index falls below minus the number of lines makes the next
    [lines[index]] raise [IndexError]; nothing catches it, so the pass ends
    with that exception and writes no file. *)
Theorem negative_count_index_error (st : Filter.state)
    (raw_img raw_count : string) (n : Z) :
  Filter.getitem lines (Filter.index st) = Ok raw_img ->
  is_image_name (Py.strip raw_img) = true ->
  path_exists (OsPath.normpath (OsPath.join image_dir (Py.strip raw_img)))
  = false ->
  Filter.index st + 1 < Filter.total_lines lines ->
  Filter.getitem lines (Filter.index st + 1) = Ok raw_count ->
  Py.int (Py.strip raw_count) = Some n ->
  Filter.index st + 2 + n < - Filter.total_lines lines ->
  forall fuel, negative_loop (S (S fuel)) st = Filter.Raised IndexError.
Proof.
  intros Himg Hname Hexists Hlt Hcount Hint Hlow fuel.
  cbn [Filter.while_loop].
  replace (Filter.index st <? Filter.total_lines lines) with true
    by (symmetry; apply Z.ltb_lt; lia).
  rewrite (filter_body_missing st raw_img raw_count n) by done.
  cbn [Filter.index].
  replace (Filter.index st + 1 + (1 + n) <? Filter.total_lines lines)
    with true
    by (symmetry; apply Z.ltb_lt; unfold Filter.total_lines in *; lia).
  unfold Filter.loop_body, Filter.getitem. cbn [Filter.index].
  replace (Filter.index st + 1 + (1 + n) <? 0) with true
    by (symmetry; apply Z.ltb_lt; unfold Filter.total_lines in *; lia).
  replace (Filter.index st + 1 + (1 + n) + Z.of_nat (length lines) <? 0)
    with true
    by (symmetry; apply Z.ltb_lt; unfold Filter.total_lines in *; lia).
  reflexivity.
Qed.

End NegativeCount.

Lemma negative_count_hangs_witness :
  Filter.filter_annotations example_path_exists always_writable "images"
    "filtered.txt" ["b.jpg" +:+ nl; "-2" +:+ nl] 1000 ∅
  = Filter.OutOfFuel.
Proof.
  unfold Filter.filter_annotations.
  by rewrite (proj2 (negative_count_hangs example_path_exists "images"
                       ["b.jpg" +:+ nl; "-2" +:+ nl] Filter.initial
                       ("b.jpg" +:+ nl) ("-2" +:+ nl)
                       eq_refl eq_refl eq_refl eq_refl eq_refl eq_refl)
                1000%nat).
Defined.

Lemma negative_count_index_error_witness :
  Filter.filter_annotations example_path_exists always_writable "images"
    "filtered.txt" ["b.jpg" +:+ nl; "-5" +:+ nl] 2 ∅
  = Filter.Raised IndexError.
Proof.
  unfold Filter.filter_annotations.
  by rewrite (negative_count_index_error example_path_exists "images"
                ["b.jpg" +:+ nl; "-5" +:+ nl] Filter.initial
                ("b.jpg" +:+ nl) ("-5" +:+ nl) (-5)
                eq_refl eq_refl eq_refl eq_refl eq_refl eq_refl eq_refl 0%nat).
Defined.

(** ** Stripping twice *)

Lemma lstrip_idempotent (s : string) : Py.lstrip (Py.lstrip s) = Py.lstrip s.
Proof.
  induction s as [|c s IH]; [done|]. simpl.
  destruct (Py.isspace c) eqn:Hc; [exact IH|]. simpl. by rewrite Hc.
Qed.

Lemma lstrip_head (s s' : string) (c : ascii) :
  Py.lstrip s = String c s' -> Py.isspace c = false.
Proof.
  induction s as [|d s IH]; [done|]. simpl.
  destruct (Py.isspace d) eqn:Hd; [exact IH|]. by intros [= <- <-].
Qed.

Lemma lstrip_stable (c : ascii) (s : string) :
  Py.isspace c = false -> Py.lstrip (String c s) = String c s.
Proof. intros Hc. simpl. by rewrite Hc. Qed.

Lemma rstrip_idempotent (s : string) : Py.rstrip (Py.rstrip s) = Py.rstrip s.
Proof.
  unfold Py.rstrip. by rewrite rev_involutive, lstrip_idempotent.
Qed.

Lemma lstrip_rstrip (t : string) :
  Py.lstrip t = t -> Py.lstrip (Py.rstrip t) = Py.rstrip t.
Proof.
  intros Ht. destruct (rstrip_decompose t) as (ws & _ & Hdec).
  destruct (Py.rstrip t) as [|c r] eqn:Hr; [done|].
  rewrite Hdec, append_cons in Ht.
  apply lstrip_head in Ht. by apply lstrip_stable.
Qed.

Lemma lstrip_strip (s : string) : Py.lstrip (Py.strip s) = Py.strip s.
Proof. apply lstrip_rstrip, lstrip_idempotent. Qed.

Lemma rstrip_strip (s : string) : Py.rstrip (Py.strip s) = Py.strip s.
Proof. apply rstrip_idempotent. Qed.

Lemma rev_nl : String.rev nl = nl.
Proof. reflexivity. Qed.

(** Stripping a stripped line to which a newline was added gives the
    stripped line back. *)
Lemma strip_emitted (raw : string) : Py.strip (emitted raw) = Py.strip raw.
Proof.
  unfold emitted.
  pose proof (lstrip_strip raw) as Hl. pose proof (rstrip_strip raw) as Hr.
  destruct (Py.strip raw) as [|c u] eqn:Hu; [reflexivity|].
  apply lstrip_head in Hl.
  unfold Py.strip at 1.
  rewrite append_cons, (lstrip_stable c _ Hl), <- append_cons.
  unfold Py.rstrip in *.
  rewrite rev_append, rev_nl.
  change (nl +:+ String.rev (String c u))
    with (String (ascii_of_nat 10) (String.rev (String c u))).
  change (Py.lstrip (String (ascii_of_nat 10) (String.rev (String c u))))
    with (Py.lstrip (String.rev (String c u))).
  exact Hr.
Qed.

Lemma emitted_emitted (raw : string) : emitted (emitted raw) = emitted raw.
Proof. unfold emitted at 1 3. by rewrite strip_emitted. Qed.

(** ** Filtering what the filter wrote *)

Lemma normalized_block (r : annotation_record) :
  block (normalized r) = emitted <$> block r.
Proof. reflexivity. Qed.

Lemma normalized_well_formed (r : annotation_record) :
  well_formed r -> well_formed (normalized r).
Proof.
  intros [Hname Hint]. unfold well_formed, normalized.
  cbn [image_line count_line box_lines].
  rewrite !strip_emitted, length_fmap. by split.
Qed.

Lemma resolved_normalized (image_dir : string) (r : annotation_record) :
  resolved image_dir (normalized r) = resolved image_dir r.
Proof.
  unfold resolved, normalized. cbn [image_line]. by rewrite strip_emitted.
Qed.

Lemma normalized_idempotent (r : annotation_record) :
  normalized (normalized r) = normalized r.
Proof.
  unfold normalized. cbn [image_line count_line box_lines].
  rewrite !emitted_emitted. f_equal.
  rewrite <- list_fmap_compose. apply list_fmap_ext.
  intros _ raw _. apply emitted_emitted.
Qed.

Lemma normalized_twice (records : list annotation_record) :
  normalized <$> (normalized <$> records) = normalized <$> records.
Proof.
  induction records as [|r records IH]; [done|].
  cbn [fmap list_fmap]. by rewrite normalized_idempotent, IH.
Qed.

Lemma concat_emitted_blocks (records : list annotation_record) :
  concat ((fun r => emitted <$> block r) <$> records)
  = concat (block <$> (normalized <$> records)).
Proof.
  induction records as [|r records IH]; [done|].
  cbn [fmap list_fmap concat]. by rewrite normalized_block, IH.
Qed.

Section Idempotence.

Variable path_exists : string -> bool.
Variable open_ok : string -> bool.
Variables image_dir output_annotations_file : string.

Abbreviation exists_on_disk :=
  (fun r : annotation_record => path_exists (resolved image_dir r)).

(** The records that were kept are all kept again. *)
Lemma kept_again (records : list annotation_record) :
  List.filter exists_on_disk
    (normalized <$> List.filter exists_on_disk records)
  = normalized <$> List.filter exists_on_disk records
  /\ List.filter (fun r => negb (exists_on_disk r))
       (normalized <$> List.filter exists_on_disk records)
     = [].
Proof.
  induction records as [|r records [IHkept IHabsent]]; [done|].
  cbn [List.filter]. destruct (exists_on_disk r) eqn:Hr; [|done].
  cbn [fmap list_fmap List.filter].
  rewrite resolved_normalized, Hr. cbn [negb]. by rewrite IHkept, IHabsent.
Qed.

(** The filter pass on a well-formed file. *)
Lemma filter_run_records (records : list annotation_record) (fuel : nat)
    (fs : gmap string file_data) :
  Forall well_formed records ->
  (length records < fuel)%nat ->
  open_ok output_annotations_file = true ->
  exists lg,
    Filter.filter_annotations path_exists open_ok image_dir
      output_annotations_file (concat (block <$> records)) fuel fs
    = Filter.Finished
        (<[output_annotations_file :=
             TextFile
               (String.concat ""
                  (concat (block <$> (normalized
                                        <$> List.filter exists_on_disk
                                              records))))]> fs,
         Filter.State (Z.of_nat (length (concat (block <$> records))))
           (concat (block <$> (normalized
                                 <$> List.filter exists_on_disk records)))
           ((fun r => Py.strip (image_line r))
              <$> List.filter (fun r => negb (exists_on_disk r)) records)
           (length (List.filter exists_on_disk records)) lg).
Proof.
  intros Hwf Hfuel Hok.
  pose proof (filter_loop_records path_exists image_dir records []
                Filter.initial fuel Hwf eq_refl Hfuel) as Hloop.
  rewrite app_nil_l in Hloop.
  eexists. unfold Filter.filter_annotations. rewrite Hloop, Hok.
  unfold Filter.written.
  cbn [Filter.filtered_lines Filter.missing_images Filter.processed_images
       Filter.index Filter.initial app Nat.add].
  rewrite concat_emitted_blocks. reflexivity.
Qed.

(** X11. The filter pass is idempotent on well-formed files: run again on
    the lines it has written, it writes the same lines to the output file,
    keeps every record and finds no image missing. *)
Theorem filter_idempotent (records : list annotation_record) (fuel : nat)
    (fs : gmap string file_data) :
  Forall well_formed records ->
  (length records < fuel)%nat ->
  open_ok output_annotations_file = true ->
  exists fs1 st1 st2,
    Filter.filter_annotations path_exists open_ok image_dir
      output_annotations_file (concat (block <$> records)) fuel fs
    = Filter.Finished (fs1, st1)
    /\ Filter.filter_annotations path_exists open_ok image_dir
         output_annotations_file (Filter.filtered_lines st1) fuel fs1
       = Filter.Finished (fs1, st2)
    /\ Filter.filtered_lines st2 = Filter.filtered_lines st1
    /\ Filter.missing_images st2 = []
    /\ Filter.processed_images st2 = Filter.processed_images st1.
Proof.
  intros Hwf Hfuel Hok.
  set (kept := List.filter exists_on_disk records).
  destruct (filter_run_records records fuel fs Hwf Hfuel Hok) as [lg1 Hrun1].
  fold kept in Hrun1.
  assert (Hwf2 : Forall well_formed (normalized <$> kept)).
  { apply Forall_fmap. unfold kept.
    clear -Hwf. induction Hwf as [|r records Hr _ IH]; [constructor|].
    cbn [List.filter]. destruct (exists_on_disk r); [|exact IH].
    constructor; [by apply normalized_well_formed|exact IH]. }
  assert (Hfuel2 : (length (normalized <$> kept) < fuel)%nat).
  { rewrite length_fmap. unfold kept.
    pose proof (List.filter_length_le exists_on_disk records). lia. }
  destruct (filter_run_records (normalized <$> kept) fuel
              (<[output_annotations_file :=
                   TextFile
                     (String.concat ""
                        (concat (block <$> (normalized <$> kept))))]> fs)
              Hwf2 Hfuel2 Hok) as [lg2 Hrun2].
  destruct (kept_again records) as [Hkept Habsent].
  fold kept in Hkept, Habsent.
  rewrite Hkept, Habsent in Hrun2.
  rewrite normalized_twice, insert_insert_eq in Hrun2.
  eexists _, _, _. split; [exact Hrun1|].
  cbn [Filter.filtered_lines]. split; [exact Hrun2|].
  cbn [Filter.filtered_lines Filter.missing_images Filter.processed_images].
  split; [done|]. split; [done|]. by rewrite length_fmap.
Qed.

End Idempotence.

Lemma filter_idempotent_witness :
  let a := AnnotationRecord (parade +:+ nl) ("1" +:+ nl)
             ["449 330 122 149 0 0 0 0 0 0 " +:+ nl] in
  let b := AnnotationRecord ("1--Handshaking/b.jpg" +:+ nl) ("1" +:+ nl)
             ["1 2 3 4" +:+ nl] in
  exists fs1 st1 st2,
    Filter.filter_annotations example_path_exists always_writable "images"
      "filtered.txt" (block a ++ block b) 3 ∅ = Filter.Finished (fs1, st1)
    /\ Filter.filter_annotations example_path_exists always_writable "images"
         "filtered.txt" (Filter.filtered_lines st1) 3 fs1
       = Filter.Finished (fs1, st2)
    /\ Filter.filtered_lines st2 = Filter.filtered_lines st1.
Proof.
  intros a b.
  destruct (filter_idempotent example_path_exists always_writable "images"
              "filtered.txt" [a; b] 3 ∅
              ltac:(repeat constructor) ltac:(simpl; lia) eq_refl)
    as (fs1 & st1 & st2 & Hrun1 & Hrun2 & Hlines & _).
  exists fs1, st1, st2. split; [exact Hrun1|]. split; [exact Hrun2|exact Hlines].
Defined.

(** ** Reading back what was written *)

Lemma has_char_rev (c : ascii) (s : string) :
  has_char c (String.rev s) = has_char c s.
Proof.
  induction s as [|d s IH]; [done|].
  rewrite rev_cons, has_char_append, IH. simpl.
  by rewrite orb_false_r, orb_comm.
Qed.

Lemma has_char_lstrip (c : ascii) (s : string) :
  has_char c s = false -> has_char c (Py.lstrip s) = false.
Proof.
  induction s as [|d s IH]; [done|]. simpl.
  destruct (Py.isspace d); [|done].
  intros [_ Hs]%orb_false_elim. by apply IH.
Qed.

Lemma has_char_rstrip (c : ascii) (s : string) :
  has_char c s = false -> has_char c (Py.rstrip s) = false.
Proof.
  intros Hs. unfold Py.rstrip. rewrite has_char_rev.
  apply has_char_lstrip. by rewrite has_char_rev.
Qed.

Lemma has_char_strip (c : ascii) (s : string) :
  has_char c s = false -> has_char c (Py.strip s) = false.
Proof. intros Hs. by apply has_char_rstrip, has_char_lstrip. Qed.

Lemma rstrip_append_nl (s : string) : Py.rstrip (s +:+ nl) = Py.rstrip s.
Proof. unfold Py.rstrip. by rewrite rev_append. Qed.

Lemma lstrip_append_nl (s : string) :
  Py.lstrip (s +:+ nl)
  = match Py.lstrip s with
    | EmptyString => EmptyString
    | String c t => String c t +:+ nl
    end.
Proof.
  induction s as [|d s IH]; [done|].
  rewrite append_cons. simpl. by destruct (Py.isspace d).
Qed.

Lemma strip_append_nl (s : string) : Py.strip (s +:+ nl) = Py.strip s.
Proof.
  unfold Py.strip. rewrite lstrip_append_nl.
  destruct (Py.lstrip s) as [|c t]; [done|]. apply rstrip_append_nl.
Qed.

(** The lines that [readlines] gives can be written and read back. *)
Lemma line_of_text_one_line (raw : string) : line_of_text raw -> one_line raw.
Proof.
  intros (Hcr & body & Hbody & [-> | ->]); split.
  - by apply has_char_strip.
  - by apply has_char_strip.
  - by apply has_char_strip.
  - rewrite strip_append_nl. by apply has_char_strip.
Qed.

Lemma translate_newlines_no_cr (s : string) :
  has_char CR (translate_newlines s) = false.
Proof.
  assert (Hgen : forall n s, (String.length s <= n)%nat ->
                   has_char CR (translate_newlines s) = false).
  { clear s. induction n as [|n IH]; intros [|c s] Hlen; try done.
    - simpl in Hlen. lia.
    - simpl in Hlen. cbn [translate_newlines].
      destruct (Ascii.eqb c CR) eqn:Hc.
      + cbn [has_char]. change (Ascii.eqb LF CR) with false. cbn [orb].
        destruct s as [|d s]; [done|].
        destruct (Ascii.eqb d LF); apply IH; simpl in *; lia.
      + cbn [has_char]. rewrite Hc. apply IH. lia. }
  by apply (Hgen (String.length s)).
Qed.

Lemma translate_newlines_id (s : string) :
  has_char CR s = false -> translate_newlines s = s.
Proof.
  induction s as [|c s IH]; [done|]. cbn [has_char translate_newlines].
  intros [Hc Hs]%orb_false_elim. rewrite Hc. by rewrite IH.
Qed.

Lemma split_lines_pieces (s cur : string) :
  has_char CR s = false ->
  has_char CR cur = false -> has_char LF cur = false ->
  Forall line_of_text (split_lines cur s).
Proof.
  revert cur. induction s as [|c s IH]; intros cur Hs Hcr Hlf.
  - simpl. destruct (String.eqb cur ""); [constructor|].
    constructor; [|constructor]. split; [by rewrite has_char_rev|].
    exists (String.rev cur). split; [by rewrite has_char_rev|by left].
  - cbn [has_char] in Hs. apply orb_false_elim in Hs as [Hc Hs].
    cbn [split_lines]. destruct (Ascii.eqb c LF) eqn:Hclf.
    + apply Ascii.eqb_eq in Hclf. subst c.
      constructor; [|by apply IH].
      rewrite rev_cons. split.
      * rewrite has_char_append, has_char_rev, Hcr. reflexivity.
      * exists (String.rev cur). split; [by rewrite has_char_rev|by right].
    + apply IH; [done|..]; cbn [has_char]; [by rewrite Hc|by rewrite Hclf].
Qed.

Lemma readlines_lines (content : string) :
  Forall line_of_text (readlines content).
Proof.
  apply split_lines_pieces; [apply translate_newlines_no_cr|done..].
Qed.

Lemma split_lines_line (body rest cur : string) :
  has_char LF body = false ->
  split_lines cur (body +:+ nl +:+ rest)
  = (String.rev cur +:+ body +:+ nl) :: split_lines "" rest.
Proof.
  revert cur. induction body as [|c body IH]; intros cur Hbody.
  - rewrite append_nil_l. change (nl +:+ rest) with (String LF rest).
    cbn [split_lines]. rewrite Ascii.eqb_refl. by rewrite rev_cons.
  - cbn [has_char] in Hbody. apply orb_false_elim in Hbody as [Hc Hbody].
    rewrite append_cons. cbn [split_lines]. rewrite Hc.
    rewrite IH by done. by rewrite rev_cons, append_assoc.
Qed.

Lemma has_char_concat_emitted (c : ascii) (raws : list string) :
  Ascii.eqb LF c = false ->
  Forall (fun raw => has_char c (Py.strip raw) = false) raws ->
  has_char c (String.concat "" (emitted <$> raws)) = false.
Proof.
  intros Hc Hraws. induction Hraws as [|raw raws Hraw _ IH]; [done|].
  cbn [fmap list_fmap]. rewrite concat_cons, has_char_append, IH.
  unfold emitted. rewrite has_char_append, Hraw.
  change (has_char c nl) with (Ascii.eqb LF c || false). by rewrite Hc.
Qed.

Lemma split_lines_emitted (raws : list string) :
  Forall (fun raw => has_char LF (Py.strip raw) = false) raws ->
  split_lines "" (String.concat "" (emitted <$> raws)) = emitted <$> raws.
Proof.
  intros Hraws. induction Hraws as [|raw raws Hraw _ IH]; [done|].
  cbn [fmap list_fmap]. rewrite concat_cons. unfold emitted at 1.
  rewrite append_assoc, split_lines_line by done.
  by rewrite IH.
Qed.

Lemma readlines_emitted (raws : list string) :
  Forall one_line raws ->
  readlines (String.concat "" (emitted <$> raws)) = emitted <$> raws.
Proof.
  intros Hraws. unfold readlines.
  rewrite translate_newlines_id.
  - apply split_lines_emitted.
    eapply Forall_impl; [exact Hraws|]. by intros raw [_ Hlf].
  - apply has_char_concat_emitted; [done|].
    eapply Forall_impl; [exact Hraws|]. by intros raw [Hcr _].
Qed.

(** X12. Writing and reading back: when the stripped form of each line has
    no line break in it, [readlines] of the text that [writelines] writes
    for the stripped, newline-ended lines is the list of those lines; and
    every line that [readlines] gives is such a line. *)
Theorem readlines_written (raws : list string) :
  Forall one_line raws ->
  readlines (String.concat "" (emitted <$> raws)) = emitted <$> raws
  /\ forall content, Forall one_line (readlines content).
Proof.
  intros Hraws. split; [by apply readlines_emitted|].
  intros content. eapply Forall_impl; [apply readlines_lines|].
  apply line_of_text_one_line.
Qed.

Lemma readlines_written_witness :
  readlines
    (String.concat ""
       (emitted <$> [parade +:+ nl; "1" +:+ nl;
                     "449 330 122 149 0 0 0 0 0 0 " +:+ nl]))
  = [parade +:+ nl; "1" +:+ nl; "449 330 122 149 0 0 0 0 0 0" +:+ nl].
Proof.
  exact (proj1 (readlines_written
                  [parade +:+ nl; "1" +:+ nl;
                   "449 330 122 149 0 0 0 0 0 0 " +:+ nl]
                  ltac:(repeat constructor))).
Defined.

(** ** The script: the filter pass, then the conversion pass *)





Section Pipeline.

Variable float_repr : Qc -> string.
Variable path_exists : string -> bool.
Variable image_open : string -> option (Z * Z).
Variable open_ok : string -> bool.
Variable makedirs_ok : string -> bool.
Variables annotations_file image_dir filtered_annotations_file : string.

Hypothesis all_made : forall path, makedirs_ok path = true.
Hypothesis all_writable : forall path, open_ok path = true.
Hypothesis sizes_not_zero :
  forall path W H, image_open path = Some (W, H) -> W ≠ 0 /\ H ≠ 0.


End Pipeline.


(** ** Where the files of a record go *)

Lemma startswith_slash_cons (s : string) :
  Py.startswith (String "/" s) "/" = true.
Proof.
  unfold Py.startswith. rewrite prefix_cons.
  destruct (ascii_dec "/" "/"); [by destruct s|done].
Qed.

Lemma startswith_slash (s : string) :
  Py.startswith s "/" = true <-> exists s', s = String "/" s'.
Proof.
  split.
  - unfold Py.startswith. destruct s as [|c s]; [done|]. rewrite prefix_cons.
    destruct (ascii_dec "/" c) as [<-|]; [eauto|done].
  - intros [s' ->]. apply startswith_slash_cons.
Qed.

Lemma normpath_absolute (p : string) :
  Py.startswith p "/" = true -> Py.startswith (OsPath.normpath p) "/" = true.
Proof.
  intros Hp. unfold OsPath.normpath. rewrite Hp.
  apply startswith_slash in Hp as Hp'. destruct Hp' as [p' ->].
  cbn [String.eqb Ascii.eqb Bool.eqb].
  destruct (Py.startswith (String "/" p') "//" && _).
  - set (joined := OsPath.join_sep _).
    change ("//" +:+ joined) with (String "/" (String "/" joined)).
    cbn [String.eqb]. apply startswith_slash_cons.
  - set (joined := OsPath.join_sep _).
    change ("/" +:+ joined) with (String "/" joined).
    cbn [String.eqb]. apply startswith_slash_cons.
Qed.

Lemma splitext_absolute (q : string) :
  Py.startswith q "/" = true ->
  Py.startswith (OsPath.splitext q).1 "/" = true.
Proof.
  intros Hq. apply startswith_slash in Hq as Hq'. destruct Hq' as [q' ->].
  unfold OsPath.splitext.
  destruct (_ <? _) eqn:Hlt; [|done].
  destruct (OsPath.all_dots _); [done|]. cbn [fst].
  apply Z.ltb_lt in Hlt.
  assert (Hsep : 0 <= Py.rfind (String "/" q') OsPath.sep).
  { unfold Py.rfind.
    destruct (rfind_go_spec OsPath.sep (String "/" q') 0 (-1))
      as [[_ Habsent]|[Hpos _]]; [done|exact Hpos]. }
  destruct (Z.to_nat (Py.rfind (String "/" q') ".")) as [|k] eqn:Hk; [lia|].
  apply startswith_slash_cons.
Qed.

(** X14. The YOLO file of an image line that is an absolute path is
    written at that path with the extension replaced, whatever the YOLO
    output directory is: [os.path.join] drops the directory. The VOC file
    of any image line is directly inside the VOC output directory. *)
Theorem absolute_image_path (current_image output_yolo_dir
    output_voc_dir : string) :
  Py.startswith current_image "/" = true ->
  let p := OsPath.normpath current_image in
  yolo_output_path p output_yolo_dir = (OsPath.splitext p).1 +:+ ".txt"
  /\ Py.startswith (yolo_output_path p output_yolo_dir) "/" = true
  /\ exists name,
       has_char "/" name = false
       /\ xml_output_path p output_voc_dir
          = if String.eqb output_voc_dir "" || Py.endswith output_voc_dir "/"
            then output_voc_dir +:+ name
            else output_voc_dir +:+ "/" +:+ name.
Proof.
  intros Habs p.
  assert (Hstem : Py.startswith ((OsPath.splitext p).1 +:+ ".txt") "/" = true).
  { pose proof (splitext_absolute p (normpath_absolute _ Habs)) as Hs.
    apply startswith_slash in Hs as [s' ->]. apply startswith_slash_cons. }
  assert (Hyolo : yolo_output_path p output_yolo_dir
                  = (OsPath.splitext p).1 +:+ ".txt").
  { unfold yolo_output_path, OsPath.join. by rewrite Hstem. }
  split; [exact Hyolo|]. split; [by rewrite Hyolo|].
  exists ((OsPath.splitext (OsPath.basename p)).1 +:+ ".xml").
  assert (Hname : has_char "/"
                    ((OsPath.splitext (OsPath.basename p)).1 +:+ ".xml")
                  = false).
  { rewrite has_char_append.
    by rewrite splitext_no_sep by apply basename_no_sep. }
  split; [exact Hname|].
  unfold xml_output_path, OsPath.join.
  destruct (Py.startswith
              ((OsPath.splitext (OsPath.basename p)).1 +:+ ".xml") "/")
    eqn:Hstart; [|done].
  apply startswith_slash in Hstart as [s' Hs'].
  rewrite Hs' in Hname. by simpl in Hname.
Qed.

Lemma absolute_image_path_witness :
  yolo_output_path (OsPath.normpath "/data/wider/1.jpg") "output/yolo"
  = "/data/wider/1.txt"
  /\ xml_output_path (OsPath.normpath "/data/wider/1.jpg") "output/voc"
     = "output/voc/1.xml".
Proof.
  destruct (absolute_image_path "/data/wider/1.jpg" "output/yolo" "output/voc"
              eq_refl) as (Hyolo & _ & _).
  split; [exact Hyolo|reflexivity].
Defined.

(** ** The files the conversion pass touches *)

Section TouchedFiles.

Variable float_repr : Qc -> string.
Variable image_open : string -> option (Z * Z).
Variable open_ok : string -> bool.
Variables output_yolo_dir output_voc_dir image_dir : string.
Variable lines : list string.

Abbreviation touched_record :=
  (Convert.process_record float_repr image_open open_ok
     output_yolo_dir output_voc_dir image_dir).

(** What a record leaves at a path: the old file, or a new one when the
    path ends in [.txt] or [.xml]. *)
Lemma process_record_files (current_image : string) (boxes : list (list Z))
    (st : Convert.state) (path : string) :
  (is_Some (Convert.files st !! path) ->
   is_Some (Convert.files (touched_record current_image boxes st) !! path))
  /\ (Py.endswith path ".txt" = false -> Py.endswith path ".xml" = false ->
      Convert.files (touched_record current_image boxes st) !! path
      = Convert.files st !! path).
Proof.
  destruct (image_open (image_path_of image_dir current_image))
    as [[W H]|] eqn:Hopen.
  - rewrite (process_record_readable _ _ _ _ _ _ _ _ W H) by done.
    set (mid := Convert.save_yolo _ _ _ _ _ _ _ _).
    assert (Hmid : (is_Some (Convert.files st !! path) ->
                    is_Some (Convert.files mid !! path))
                   /\ (Py.endswith path ".txt" = false ->
                       Convert.files mid !! path = Convert.files st !! path)).
    { unfold mid, Convert.save_yolo.
      destruct (open_ok _); [|done].
      set (target := yolo_output_path _ _).
      assert (Htarget : Py.endswith target ".txt" = true)
        by apply endswith_join, endswith_self.
      destruct (Convert.write_boxes _ _ _ _ _) as [content [e|]];
        cbn [Convert.files]; (split;
          [ intros Hsome; destruct (decide (path = target)) as [->|Hne];
            [rewrite lookup_insert_eq; eauto
            |by rewrite lookup_insert_ne by done]
          | intros Htxt; rewrite lookup_insert_ne; [done|];
            intros <-; congruence ]). }
    destruct Hmid as [Hkeep Hsame].
    rewrite save_voc_lookup. split.
    + intros Hsome. destruct (_ && _); [eauto|by apply Hkeep].
    + intros Htxt Hxml.
      rewrite bool_decide_false, andb_false_r; [by apply Hsame|].
      intros ->.
      assert (Py.endswith
                (xml_output_path (OsPath.normpath current_image)
                   output_voc_dir) ".xml" = true)
        by apply endswith_join, endswith_self.
      congruence.
  - by rewrite process_record_unreadable.
Qed.

Lemma loop_body_files (st : Convert.state) (path : string) :
  let st' :=
    (Convert.loop_body float_repr image_open open_ok output_yolo_dir
       output_voc_dir image_dir lines st).2 in
  (is_Some (Convert.files st !! path) ->
   is_Some (Convert.files st' !! path))
  /\ (Py.endswith path ".txt" = false -> Py.endswith path ".xml" = false ->
      Convert.files st' !! path = Convert.files st !! path).
Proof.
  unfold Convert.loop_body.
  destruct (Convert.scan lines (Convert.index st) (Convert.logs st))
    as [[sc index'] lg].
  destruct sc as [current_image num_boxes boxes| | |]; cbn [snd]; try done.
  apply (process_record_files current_image boxes
           (Convert.State index' (Convert.yolo_file_count st)
              (Convert.voc_file_count st) (Convert.files st) lg)).
Qed.

Lemma while_loop_files (fuel : nat) (st st' : Convert.state) (path : string) :
  Convert.while_loop float_repr image_open open_ok output_yolo_dir
    output_voc_dir image_dir lines fuel st = Some st' ->
  (is_Some (Convert.files st !! path) ->
   is_Some (Convert.files st' !! path))
  /\ (Py.endswith path ".txt" = false -> Py.endswith path ".xml" = false ->
      Convert.files st' !! path = Convert.files st !! path).
Proof.
  revert st. induction fuel as [|fuel IH]; intros st; [done|].
  cbn [Convert.while_loop].
  destruct (_ <? _)%nat; [|by intros [= <-]].
  pose proof (loop_body_files st path) as Hbody. cbv zeta in Hbody.
  destruct (Convert.loop_body _ _ _ _ _ _ _ _) as [[|] st1]; cbn [snd] in Hbody.
  - intros Hloop. destruct (IH st1 Hloop) as [Hkeep Hsame].
    destruct Hbody as [Hkeep1 Hsame1]. split.
    + intros Hsome. by apply Hkeep, Hkeep1.
    + intros Htxt Hxml. by rewrite Hsame, Hsame1.
  - by intros [= <-].
Qed.

(** X15. Whatever the input, the conversion pass removes no file, and it
    writes no file whose path does not end in [.txt] or [.xml]: every other
    file, the annotation files among them, is found after the pass as it
    was before. *)
Theorem conversion_pass_touches (fs : gmap string file_data) :
  exists st,
    Convert.process_annotations float_repr image_open open_ok
      output_yolo_dir output_voc_dir image_dir lines fs = Some st
    /\ (forall path, is_Some (fs !! path) ->
          is_Some (Convert.files st !! path))
    /\ (forall path,
          Py.endswith path ".txt" = false ->
          Py.endswith path ".xml" = false ->
          Convert.files st !! path = fs !! path).
Proof.
  unfold Convert.process_annotations.
  destruct (while_loop_total float_repr image_open open_ok output_yolo_dir
              output_voc_dir image_dir lines (S (length lines))
              (Convert.initial lines fs)) as [st Hst]; [simpl; lia|].
  rewrite Hst. exists (Convert.summary st). split; [reflexivity|].
  cbn [Convert.summary Convert.files].
  split; intros path; by apply (while_loop_files _ _ _ path Hst).
Qed.

(** X16. Two records whose image paths have the same base name share one
    VOC file: after both, the file holds the document of the second record
    only, while the VOC counter has moved by two. *)
Theorem same_base_name_overwrites (img1 img2 : string)
    (boxes1 boxes2 : list (list Z)) (W1 H1 W2 H2 : Z) (st : Convert.state) :
  image_open (image_path_of image_dir img1) = Some (W1, H1) ->
  image_open (image_path_of image_dir img2) = Some (W2, H2) ->
  OsPath.basename (OsPath.normpath img1)
  = OsPath.basename (OsPath.normpath img2) ->
  let xml_path := xml_output_path (OsPath.normpath img2) output_voc_dir in
  open_ok xml_path = true ->
  let st' := touched_record img2 boxes2 (touched_record img1 boxes1 st) in
  xml_output_path (OsPath.normpath img1) output_voc_dir = xml_path
  /\ Convert.voc_file_count st' = (Convert.voc_file_count st + 2)%nat
  /\ Convert.files st' !! xml_path
     = Some (XmlFile
               (Element "annotation" None
                  (voc_fixed_fields (OsPath.normpath img2) W2 H2
                     output_voc_dir
                   ++ omap object_of_box boxes2))).
Proof.
  intros Hopen1 Hopen2 Hbase xml_path Hok st'.
  assert (Hpath : xml_output_path (OsPath.normpath img1) output_voc_dir
                  = xml_path)
    by (unfold xml_path, xml_output_path; by rewrite Hbase).
  destruct (record_voc_outcome float_repr image_open open_ok
              output_yolo_dir output_voc_dir image_dir img1 boxes1 W1 H1 st
              Hopen1) as [Hcount1 _].
  destruct (record_voc_outcome float_repr image_open open_ok
              output_yolo_dir output_voc_dir image_dir img2 boxes2 W2 H2
              (touched_record img1 boxes1 st) Hopen2) as [Hcount2 Hfile2].
  fold xml_path in Hcount2, Hfile2. rewrite Hpath in Hcount1.
  rewrite Hok in Hcount1, Hcount2, Hfile2.
  split; [exact Hpath|]. unfold st'. split; [lia|exact Hfile2].
Qed.

End TouchedFiles.

Lemma same_base_name_overwrites_witness :
  let st' :=
    Convert.process_record fraction_repr (fun _ => Some (1024, 683))
      always_writable "output/yolo" "output/voc" "images" "b/1.jpg" []
      (Convert.process_record fraction_repr (fun _ => Some (1024, 683))
         always_writable "output/yolo" "output/voc" "images" "a/1.jpg"
         [[449; 330; 122; 149]] (Convert.State 3 0 0 ∅ [])) in
  Convert.voc_file_count st' = 2%nat
  /\ Convert.files st' !! "output/voc/1.xml"
     = Some (XmlFile
               (Element "annotation" None
                  (voc_fixed_fields "b/1.jpg" 1024 683 "output/voc"))).
Proof.
  intros st'.
  destruct (same_base_name_overwrites fraction_repr
              (fun _ => Some (1024, 683)) always_writable
              "output/yolo" "output/voc" "images" "a/1.jpg" "b/1.jpg"
              [[449; 330; 122; 149]] [] 1024 683 1024 683
              (Convert.State 3 0 0 ∅ []) eq_refl eq_refl eq_refl eq_refl)
    as (_ & Hcount & Hfile).
  split; [exact Hcount|]. rewrite app_nil_r in Hfile. exact Hfile.
Defined.
